(** * The research loop of ollama_deep_researcher: a shallow embedding

    The development follows [src/ollama_deep_researcher/graph.py] and
    [src/ollama_deep_researcher/configuration.py].

    - Python [str] values are [string]s; a character stands for a code
      point below 256, so [String.length] is Python's [len].
    - Python [int] is [Z].
    - Exceptions are values of [exn]; a computation that may raise
      returns [res A].
    - The language model, the search services, the process environment
      and the helper modules [utils] and [prompts] are inputs of the
      nodes: every external call receives the index of the node
      execution that makes it, so two calls may answer differently. *)

From stdpp Require Import gmap strings list.
From Stdlib Require Import ZArith Ascii.

#[local] Open Scope string_scope.
#[local] Open Scope list_scope.
#[local] Open Scope Z_scope.
#[local] Set Warnings "-register-all,-clear-no-such-hyp".

(** ** Python strings *)

Module PyStr.

Definition nl_char : ascii := ascii_of_nat 10.

Definition NL : string := String nl_char EmptyString.

Definition is_nl (c : ascii) : bool := bool_decide (c = nl_char).

(** [str.isspace] on one character, for code points below 256:
    TAB..CR, FS..US, SPACE, NEL and NBSP. *)
Definition isspace (c : ascii) : bool :=
  let n := nat_of_ascii c in
  ((9 <=? n) && (n <=? 13) || (28 <=? n) && (n <=? 32)
   || (n =? 133) || (n =? 160))%nat.

(** [s.split("\n")]: never empty, [""] splits into [[""]]. *)
Fixpoint split_nl (s : string) : list string :=
  match s with
  | EmptyString => [EmptyString]
  | String c r =>
      if is_nl c then EmptyString :: split_nl r
      else match split_nl r with
           | h :: t => String c h :: t
           | [] => [String c EmptyString]
           end
  end.

Fixpoint lstrip (s : string) : string :=
  match s with
  | EmptyString => EmptyString
  | String c r => if isspace c then lstrip r else s
  end.

Fixpoint rstrip (s : string) : string :=
  match s with
  | EmptyString => EmptyString
  | String c r =>
      match rstrip r with
      | EmptyString => if isspace c then EmptyString else String c EmptyString
      | r' => String c r'
      end
  end.

(** [s.strip()] *)
Definition strip (s : string) : string := rstrip (lstrip s).

(** [s.startswith(p)] *)
Definition startswith (s p : string) : bool := String.prefix p s.

(** Truth value of a string: [bool(s)]. *)
Definition truthy (s : string) : bool :=
  match s with EmptyString => false | _ => true end.

(** [sep.join(l)] *)
Fixpoint join (sep : string) (l : list string) : string :=
  match l with
  | [] => EmptyString
  | [x] => x
  | x :: l' => x +:+ sep +:+ join sep l'
  end.

(** [c in s] for a character. *)
Fixpoint has_char (c : ascii) (s : string) : bool :=
  match s with
  | EmptyString => false
  | String d r => bool_decide (d = c) || has_char c r
  end.

(** [f"{x}"] for an optional string: [None] prints as [None]. *)
Definition fmt_opt (o : option string) : string :=
  match o with Some s => s | None => "None" end.

End PyStr.

(** ** Graph state *)

(** Python values that travel through the graph untyped: parsed JSON,
    tool-call arguments, raw configuration entries.  Numbers are
    integers. *)
Inductive pyval :=
| VNone
| VBool (b : bool)
| VNum (z : Z)
| VStr (s : string)
| VList (l : list pyval)
| VDict (d : gmap string pyval).

(** Modelled from the spec: [state.py] is not part of the sources at hand.
    The fields and their defaults are those of section 3 of the
    specification and of [tests/unit/test_state.py]; the two result lists
    are append-only channels. *)
Record SummaryState := mkState {
  research_topic : option string;
  search_query : pyval;
  web_research_results : list string;
  sources_gathered : list string;
  research_loop_count : Z;
  running_summary : option string
}.

(** The update returned by [finalize_summary], which is also the output
    of the graph. *)
Record SummaryStateOutput := mkOutput {
  out_running_summary : string;
  out_success : bool;
  out_sources : list string;
  out_error_message : option string
}.

(** ** finalize_summary *)

Module Finalize.
Import PyStr.

(** Body of the inner loop: one line against the seen-set. *)
Definition dedup_line (acc : gset string * list string) (line : string)
  : gset string * list string :=
  let '(seen_sources, unique_sources) := acc in
  if truthy (strip line) && negb (bool_decide (line ∈ seen_sources))
  then (seen_sources ∪ {[line]}, unique_sources ++ [line])
  else acc.

(** Body of the outer loop: one entry of [sources_gathered]. *)
Definition dedup_source (acc : gset string * list string) (source : string)
  : gset string * list string :=
  foldl dedup_line acc (split_nl source).

(** The two nested loops of lines 400-409; the result is
    [unique_sources]. *)
Definition unique_sources_of (gathered : list string) : list string :=
  snd (foldl dedup_source (∅, []) gathered).

(** Lines 412-416. *)
Fixpoint source_urls_of (unique_sources : list string) : list string :=
  match unique_sources with
  | [] => []
  | line :: rest =>
      if startswith (strip line) "http"
      then strip line :: source_urls_of rest
      else source_urls_of rest
  end.

(** Line 419. *)
Definition has_summary_of (summary : option string) : bool :=
  match summary with
  | None => false
  | Some s => truthy s && (50 <? Z.of_nat (String.length s))
  end.

(** Line 420. *)
Definition has_sources_of (source_urls : list string) : bool :=
  (0 <? Z.of_nat (length source_urls)).

(** Lines 424-429. *)
Definition error_message_of (has_summary has_sources : bool) : option string :=
  let success := has_summary && has_sources in
  if negb success then
    if negb has_summary then Some "Failed to generate summary"
    else if negb has_sources then Some "No sources found"
    else None
  else None.

(** Lines 432-435. *)
Definition formatted_summary_of (summary : option string)
    (unique_sources : list string) : string :=
  "## Summary" +:+ NL +:+ fmt_opt summary +:+ NL +:+ NL
    +:+ " ### Sources:" +:+ NL +:+ join NL unique_sources.

Definition finalize_summary (state : SummaryState) : SummaryStateOutput :=
  let unique_sources := unique_sources_of (sources_gathered state) in
  let source_urls := source_urls_of unique_sources in
  let has_summary := has_summary_of (running_summary state) in
  let has_sources := has_sources_of source_urls in
  {| out_running_summary :=
       formatted_summary_of (running_summary state) unique_sources;
     out_success := has_summary && has_sources;
     out_sources := source_urls;
     out_error_message := error_message_of has_summary has_sources |}.

(** The deduplication step as the specification words it: all lines of
    all entries, the blank ones dropped, the first occurrence of each
    line kept. *)
Fixpoint first_seen (l : list string) : list string :=
  match l with
  | [] => []
  | x :: l' => x :: filter (λ y, y ≠ x) (first_seen l')
  end.

Definition non_blank (line : string) : Prop := truthy (strip line) = true.

#[global] Instance non_blank_dec line : Decision (non_blank line).
Proof. unfold non_blank. apply _. Defined.

Definition dedup_spec (gathered : list string) : list string :=
  first_seen (filter non_blank (mjoin (split_nl <$> gathered))).

End Finalize.

(** ** Exceptions and Python operations that raise *)

Module Py.

Inductive exn_kind :=
| IndexError | KeyError | AttributeError | TypeError
| JSONDecodeError | ValueError | ValidationError | ServiceError.

#[global] Instance exn_kind_eq_dec : EqDecision exn_kind.
Proof. solve_decision. Defined.

(** An exception object; [exn_msg] is what [str(e)] prints. *)
Record exn := mkExn { exn_kind_of : exn_kind; exn_msg : string }.

Inductive res (A : Type) :=
| Ok (a : A)
| Raise (e : exn).
#[global] Arguments Ok {A} a.
#[global] Arguments Raise {A} e.

#[global] Instance res_ret : MRet res := λ A a, Ok a.
#[global] Instance res_bind : MBind res := λ A B f m,
  match m with Ok a => f a | Raise e => Raise e end.
#[global] Instance res_fmap : FMap res := λ A B f m,
  match m with Ok a => Ok (f a) | Raise e => Raise e end.

Definition raise {A} (k : exn_kind) (msg : string) : res A :=
  Raise (mkExn k msg).

(** [try: body except (kinds): handler]; an exception of another kind
    goes through. *)
Definition try_except {A} (body : res A) (kinds : list exn_kind)
    (handler : exn → res A) : res A :=
  match body with
  | Ok a => Ok a
  | Raise e =>
      if bool_decide (exn_kind_of e ∈ kinds) then handler e else Raise e
  end.

(** [try: body except Exception as e: handler] *)
Definition try_except_all {A} (body : res A) (handler : exn → res A) : res A :=
  match body with
  | Ok a => Ok a
  | Raise e => handler e
  end.

(** [bool(v)] *)
Definition truthy (v : pyval) : bool :=
  match v with
  | VNone => false
  | VBool b => b
  | VNum z => negb (z =? 0)
  | VStr s => PyStr.truthy s
  | VList l => match l with [] => false | _ => true end
  | VDict d => negb (bool_decide (d = ∅))
  end.

Definition is_none (v : pyval) : bool :=
  match v with VNone => true | _ => false end.

(** [l[0]] *)
Definition index0 {A} (l : list A) : res A :=
  match l with
  | x :: _ => Ok x
  | [] => raise IndexError "list index out of range"
  end.

(** [l[-1]] *)
Definition index_last {A} (l : list A) : res A :=
  match last l with
  | Some x => Ok x
  | None => raise IndexError "list index out of range"
  end.

(** [v[key]] for a string key: only a dictionary can answer. *)
Definition getitem (v : pyval) (key : string) : res pyval :=
  match v with
  | VDict d =>
      match d !! key with
      | Some x => Ok x
      | None => raise KeyError key
      end
  | _ => raise TypeError "object is not subscriptable by str"
  end.

(** [v.get(key)]: only a dictionary has the method. *)
Definition get (v : pyval) (key : string) : res pyval :=
  match v with
  | VDict d => Ok (default VNone (d !! key))
  | _ => raise AttributeError "object has no attribute get"
  end.

End Py.

(** ** configuration.py *)

Module Config.
Import Py.

Record Configuration := mkConfiguration {
  max_web_research_loops : Z;
  local_llm : string;
  search_api : string;
  fetch_full_page : bool;
  ollama_base_url : string;
  strip_thinking_tokens : bool;
  use_tool_calling : bool
}.

(** [cls.model_fields.keys()], in declaration order. *)
Definition model_fields : list string :=
  ["max_web_research_loops"; "local_llm"; "search_api"; "fetch_full_page";
   "ollama_base_url"; "strip_thinking_tokens"; "use_tool_calling"].

Definition env_mappings : list (string * string) :=
  [("LLM_MODEL", "local_llm"); ("OLLAMA_BASE_URL", "ollama_base_url")].

(** The values the [Literal] type of [search_api] allows. *)
Definition search_api_literals : list string :=
  ["perplexity"; "tavily"; "duckduckgo"; "searxng"].

(** The [RunnableConfig] handed to every node; [None] stands for a
    dictionary without the key [configurable]. *)
Record RunnableConfig := mkRunnableConfig {
  configurable : option (gmap string pyval)
}.

(** Validation of one field value by pydantic: the coercions of the
    basic types belong to the library and are inputs here. *)
Record Pydantic := mkPydantic {
  as_int : pyval → option Z;
  as_str : pyval → option string;
  as_bool : pyval → option bool
}.

(** [name.upper()], for the ASCII letters field names are made of. *)
Definition upper_char (c : ascii) : ascii :=
  let n := nat_of_ascii c in
  if ((97 <=? n) && (n <=? 122))%nat then ascii_of_nat (n - 32) else c.

Fixpoint upper (s : string) : string :=
  match s with
  | EmptyString => EmptyString
  | String c r => String (upper_char c) (upper r)
  end.

(** The inner loop over [env_mappings]: the first variable mapped to
    the field. *)
Fixpoint env_name_of (mappings : list (string * string)) (name : string)
  : option string :=
  match mappings with
  | [] => None
  | (env_var, field_name) :: rest =>
      if bool_decide (field_name = name) then Some env_var
      else env_name_of rest name
  end.

(** One round of the loop over the fields: the raw value of [name]. *)
Definition raw_value (cfg : gmap string pyval) (environ : gmap string string)
    (name : string) : pyval :=
  match cfg !! name with
  | Some v => v
  | None =>
      match env_name_of env_mappings name with
      | Some env_name =>
          match environ !! env_name with
          | Some s => VStr s
          | None =>
              match environ !! upper name with
              | Some s => VStr s
              | None => VNone
              end
          end
      | None =>
          match environ !! upper name with
          | Some s => VStr s
          | None => VNone
          end
      end
  end.

Definition raw_values (cfg : gmap string pyval) (environ : gmap string string)
  : gmap string pyval :=
  list_to_map ((λ name, (name, raw_value cfg environ name)) <$> model_fields).

(** [{k: v for k, v in raw_values.items() if v is not None}] *)
Definition not_none_values (raw : gmap string pyval) : gmap string pyval :=
  filter (λ kv, is_none (snd kv) = false) raw.

(** One field of the constructor call: the default when the key is absent,
    a validation error when the value does not fit the type. *)
Definition field {A} (values : gmap string pyval) (name : string)
    (dflt : A) (conv : pyval → option A) : res A :=
  match values !! name with
  | None => Ok dflt
  | Some v =>
      match conv v with
      | Some a => Ok a
      | None => raise ValidationError name
      end
  end.

(** The [Literal] of lines 29-31. *)
Definition as_search_api (v : pyval) : option string :=
  match v with
  | VStr s => if bool_decide (s ∈ search_api_literals) then Some s else None
  | _ => None
  end.

(** The constructor call on the keyword arguments [values]. *)
Definition construct (pyd : Pydantic) (values : gmap string pyval)
  : res Configuration :=
  loops ← field values "max_web_research_loops" 3 (as_int pyd);
  llm ← field values "local_llm" "llama3.2" (as_str pyd);
  api ← field values "search_api" "duckduckgo" as_search_api;
  full ← field values "fetch_full_page" true (as_bool pyd);
  url ← field values "ollama_base_url" "http://localhost:11434/" (as_str pyd);
  strip ← field values "strip_thinking_tokens" true (as_bool pyd);
  tool ← field values "use_tool_calling" false (as_bool pyd);
  mret (mkConfiguration loops llm api full url strip tool).

(** Line 58: the dictionary under [configurable], or an empty one. *)
Definition configurable_of (config : option RunnableConfig)
  : gmap string pyval :=
  match config with
  | Some c => default ∅ (configurable c)
  | None => ∅
  end.

Definition from_runnable_config (pyd : Pydantic)
    (environ : gmap string string) (config : option RunnableConfig)
  : res Configuration :=
  let cfg := configurable_of config in
  construct pyd (not_none_values (raw_values cfg environ)).

#[global] Arguments from_runnable_config : simpl never.


End Config.

(** ** graph.py *)

Module Graph.
Import PyStr Py Config.

Definition MAX_TOKENS_PER_SOURCE : Z := 1000.
Definition CHARS_PER_TOKEN : Z := 4.

Inductive role := System | Human.

Record Message := mkMessage { msg_role : role; msg_content : string }.

Definition SystemMessage (content : string) : Message := mkMessage System content.
Definition HumanMessage (content : string) : Message := mkMessage Human content.

(** The answer of the model: its text and its structured calls. *)
Record AIMessage := mkAIMessage {
  content : string;
  tool_calls : list pyval
}.

(** A [ChatOllama] client, with the tools bound to it by name. *)
Record ChatOllama := mkChatOllama {
  base_url : string;
  model : string;
  temperature : Z;
  format : option string;
  bound_tools : list string
}.

Definition bind_tools (llm : ChatOllama) (tools : list string) : ChatOllama :=
  mkChatOllama (base_url llm) (model llm) (temperature llm) (format llm) tools.

(** The four search functions of [utils], with the arguments the node
    passes to each. *)
Inductive search_call :=
| tavily_search (query : pyval) (fetch_full_page : bool) (max_results : Z)
| perplexity_search (query : pyval) (loop_count : Z)
| duckduckgo_search (query : pyval) (max_results : Z) (fetch_full_page : bool)
| searxng_search (query : pyval) (max_results : Z) (fetch_full_page : bool).

(** Everything the nodes call that lies outside [graph.py] and
    [configuration.py].  The first argument of a service call is the
    index of the node execution that makes it. *)
Record World := mkWorld {
  environ : gmap string string;
  pydantic : Pydantic;
  (* the model service and the JSON parser *)
  invoke : nat → ChatOllama → list Message → res AIMessage;
  json_loads : string → option pyval;
  (* utils *)
  search : nat → search_call → res pyval;
  deduplicate_and_format_sources : pyval → Z → bool → res string;
  format_sources : pyval → res string;
  get_config_value : string → string;
  strip_thinking_tokens_of : string → string;
  (* prompts *)
  get_current_date : nat → string;
  query_writer_instructions : string → option string → string;
  reflection_instructions : option string → string;
  summarizer_instructions : string;
  json_mode_query_instructions : string;
  json_mode_reflection_instructions : string;
  tool_calling_query_instructions : string;
  tool_calling_reflection_instructions : string
}.

(** What a node returns: the keys it sets.  A list field holds the
    entries the node contributes to an append-only channel. *)
Record Update := mkUpdate {
  upd_search_query : option pyval;
  upd_sources_gathered : list string;
  upd_research_loop_count : option Z;
  upd_web_research_results : list string;
  upd_running_summary : option string
}.

Definition search_query_update (q : pyval) : Update :=
  mkUpdate (Some q) [] None [] None.

Definition running_summary_update (s : string) : Update :=
  mkUpdate None [] None [] (Some s).

Definition web_research_update (source : string) (count : Z) (result : string)
  : Update :=
  mkUpdate None [source] (Some count) [result] None.

(** Modelled from the spec: the channel reducers are declared in
    [state.py], which is not part of the sources at hand.  Section 3 has
    [research_results] and [gathered_sources] append-only; every other
    key is overwritten. *)
Definition apply_update (state : SummaryState) (u : Update) : SummaryState :=
  {| research_topic := research_topic state;
     search_query := default (search_query state) (upd_search_query u);
     web_research_results :=
       web_research_results state ++ upd_web_research_results u;
     sources_gathered := sources_gathered state ++ upd_sources_gathered u;
     research_loop_count :=
       default (research_loop_count state) (upd_research_loop_count u);
     running_summary :=
       match upd_running_summary u with
       | Some s => Some s
       | None => running_summary state
       end |}.

(** Modelled from the spec: the state a run starts from, built from the
    input schema, whose only field is the topic. *)
Definition initial_state (topic : option string) : SummaryState :=
  mkState topic VNone [] [] 0 None.

Inductive node :=
| generate_query_node
| web_research_node
| summarize_sources_node
| reflect_on_summary_node
| finalize_summary_node.

#[global] Instance node_eq_dec : EqDecision node.
Proof. solve_decision. Defined.

Section Nodes.
Context (w : World).

Definition get_llm (configurable : Configuration) : ChatOllama :=
  if use_tool_calling configurable
  then mkChatOllama (ollama_base_url configurable) (local_llm configurable)
         0 None []
  else mkChatOllama (ollama_base_url configurable) (local_llm configurable)
         0 (Some "json") [].

(** Lines 64-76. *)
Definition tool_calling_query (t : nat) (configurable : Configuration)
    (messages : list Message) (tool_class : string)
    (fallback_query : string) (tool_query_field : string) : res Update :=
  let llm := bind_tools (get_llm configurable) [tool_class] in
  result ← invoke w t llm messages;
  match tool_calls result with
  | [] => mret (search_query_update (VStr fallback_query))
  | _ =>
      try_except
        (first_call ← index0 (tool_calls result);
         tool_data ← getitem first_call "args";
         search_query ← get tool_data tool_query_field;
         mret (search_query_update search_query))
        [IndexError; KeyError]
        (λ _, mret (search_query_update (VStr fallback_query)))
  end.

(** Lines 78-94. *)
Definition json_mode_query (t : nat) (configurable : Configuration)
    (messages : list Message) (fallback_query : string)
    (json_query_field : string) : res Update :=
  let llm := get_llm configurable in
  result ← invoke w t llm messages;
  let content := content result in
  try_except
    (parsed_json ←
       match json_loads w content with
       | Some v => Ok v
       | None => raise JSONDecodeError "Expecting value"
       end;
     search_query ← get parsed_json json_query_field;
     if negb (truthy search_query)
     then mret (search_query_update (VStr fallback_query))
     else mret (search_query_update search_query))
    [JSONDecodeError; KeyError]
    (λ _,
       let content :=
         if strip_thinking_tokens configurable
         then strip_thinking_tokens_of w content else content in
       mret (search_query_update (VStr fallback_query))).

Definition generate_search_query_with_structured_output (t : nat)
    (configurable : Configuration) (messages : list Message)
    (tool_class : string) (fallback_query : string)
    (tool_query_field json_query_field : string) : res Update :=
  if use_tool_calling configurable
  then tool_calling_query t configurable messages tool_class
         fallback_query tool_query_field
  else json_mode_query t configurable messages fallback_query
         json_query_field.

Definition tell_me_more (state : SummaryState) : string :=
  "Tell me more about " +:+ fmt_opt (research_topic state).

Definition generate_query (t : nat) (state : SummaryState)
    (config : option RunnableConfig) : res Update :=
  let current_date := get_current_date w t in
  let formatted_prompt :=
    query_writer_instructions w current_date (research_topic state) in
  configurable ← from_runnable_config (pydantic w) (environ w) config;
  let messages :=
    [SystemMessage
       (formatted_prompt +:+
          (if use_tool_calling configurable
           then tool_calling_query_instructions w
           else json_mode_query_instructions w));
     HumanMessage "Generate a query for web search:"] in
  generate_search_query_with_structured_output t configurable messages
    "Query" (tell_me_more state) "query" "query".

(** The dispatch of lines 203-246: the raw results and their
    formatted text. *)
Definition search_the_web (t : nat) (state : SummaryState)
    (configurable : Configuration) (api : string) : res (pyval * string) :=
  let formatted (search_results : pyval) : res (pyval * string) :=
    search_str ← deduplicate_and_format_sources w search_results
                   MAX_TOKENS_PER_SOURCE (fetch_full_page configurable);
    mret (search_results, search_str) in
  if bool_decide (api = "tavily") then
    search w t (tavily_search (search_query state)
                  (fetch_full_page configurable) 1) ≫= formatted
  else if bool_decide (api = "perplexity") then
    search w t (perplexity_search (search_query state)
                  (research_loop_count state)) ≫= formatted
  else if bool_decide (api = "duckduckgo") then
    search w t (duckduckgo_search (search_query state) 3
                  (fetch_full_page configurable)) ≫= formatted
  else if bool_decide (api = "searxng") then
    search w t (searxng_search (search_query state) 3
                  (fetch_full_page configurable)) ≫= formatted
  else
    raise ValueError ("Unsupported search API: " +:+ search_api configurable).

Definition web_research (t : nat) (state : SummaryState)
    (config : option RunnableConfig) : res Update :=
  configurable ← from_runnable_config (pydantic w) (environ w) config;
  let api := get_config_value w (search_api configurable) in
  try_except_all
    ('(search_results, search_str) ← search_the_web t state configurable api;
     sources ← format_sources w search_results;
     mret (web_research_update sources (research_loop_count state + 1)
             search_str))
    (λ e,
       mret (web_research_update "Error fetching sources"
               (research_loop_count state + 1)
               ("Search failed: " +:+ exn_msg e))).

Definition update_summary_message (existing_summary most_recent : string)
    (topic : option string) : string :=
  "<Existing Summary> " +:+ NL +:+ " " +:+ existing_summary +:+ " " +:+ NL
    +:+ " <Existing Summary>" +:+ NL +:+ NL
    +:+ "<New Context> " +:+ NL +:+ " " +:+ most_recent +:+ " " +:+ NL
    +:+ " <New Context>"
    +:+ "Update the Existing Summary with the New Context on this topic: "
    +:+ NL +:+ " <User Input> " +:+ NL +:+ " " +:+ fmt_opt topic +:+ " "
    +:+ NL +:+ " <User Input>" +:+ NL +:+ NL.

Definition create_summary_message (most_recent : string)
    (topic : option string) : string :=
  "<Context> " +:+ NL +:+ " " +:+ most_recent +:+ " " +:+ NL
    +:+ " <Context>"
    +:+ "Create a Summary using the Context on this topic: "
    +:+ NL +:+ " <User Input> " +:+ NL +:+ " " +:+ fmt_opt topic +:+ " "
    +:+ NL +:+ " <User Input>" +:+ NL +:+ NL.

(** [state.running_summary or "Summary generation failed"] *)
Definition summary_or_placeholder (summary : option string) : string :=
  match summary with
  | Some s => if PyStr.truthy s then s else "Summary generation failed"
  | None => "Summary generation failed"
  end.

Definition summarize_sources (t : nat) (state : SummaryState)
    (config : option RunnableConfig) : res Update :=
  try_except_all
    (let existing_summary := running_summary state in
     most_recent_web_research ← index_last (web_research_results state);
     let human_message_content :=
       match existing_summary with
       | Some s =>
           if PyStr.truthy s
           then update_summary_message s most_recent_web_research
                  (research_topic state)
           else create_summary_message most_recent_web_research
                  (research_topic state)
       | None =>
           create_summary_message most_recent_web_research
             (research_topic state)
       end in
     configurable ← from_runnable_config (pydantic w) (environ w) config;
     let llm :=
       mkChatOllama (ollama_base_url configurable) (local_llm configurable)
         0 None [] in
     result ← invoke w t llm
                [SystemMessage (summarizer_instructions w);
                 HumanMessage human_message_content];
     let running_summary := content result in
     let running_summary :=
       if strip_thinking_tokens configurable
       then strip_thinking_tokens_of w running_summary
       else running_summary in
     mret (running_summary_update running_summary))
    (λ e,
       mret (running_summary_update
               (summary_or_placeholder (running_summary state)))).

Definition reflect_on_summary (t : nat) (state : SummaryState)
    (config : option RunnableConfig) : res Update :=
  configurable ← from_runnable_config (pydantic w) (environ w) config;
  let formatted_prompt := reflection_instructions w (research_topic state) in
  let messages :=
    [SystemMessage
       (formatted_prompt +:+
          (if use_tool_calling configurable
           then tool_calling_reflection_instructions w
           else json_mode_reflection_instructions w));
     HumanMessage
       ("Reflect on our existing knowledge: " +:+ NL +:+ " === " +:+ NL
          +:+ " " +:+ fmt_opt (running_summary state) +:+ ", " +:+ NL
          +:+ " === " +:+ NL
          +:+ " And now identify a knowledge gap and generate a follow-up web search query:")] in
  generate_search_query_with_structured_output t configurable messages
    "FollowUpQuery" (tell_me_more state) "follow_up_query" "follow_up_query".

Definition route_research (state : SummaryState)
    (config : option RunnableConfig) : res node :=
  configurable ← from_runnable_config (pydantic w) (environ w) config;
  if research_loop_count state <=? max_web_research_loops configurable
  then mret web_research_node
  else mret finalize_summary_node.

(** *** The compiled graph *)

(** The edges of lines 482-487; [None] is [END]. *)
Definition successor (n : node) (state : SummaryState)
    (config : option RunnableConfig) : res (option node) :=
  match n with
  | generate_query_node => mret (Some web_research_node)
  | web_research_node => mret (Some summarize_sources_node)
  | summarize_sources_node => mret (Some reflect_on_summary_node)
  | reflect_on_summary_node => Some <$> route_research state config
  | finalize_summary_node => mret None
  end.

(** The update of a node to the channels of the state; [t] is the
    number of nodes executed before it.  The other keys that
    [finalize_summary] returns make the output of the graph. *)
Definition run_node (n : node) (t : nat) (state : SummaryState)
    (config : option RunnableConfig) : res Update :=
  match n with
  | generate_query_node => generate_query t state config
  | web_research_node => web_research t state config
  | summarize_sources_node => summarize_sources t state config
  | reflect_on_summary_node => reflect_on_summary t state config
  | finalize_summary_node =>
      mret (running_summary_update
              (out_running_summary (Finalize.finalize_summary state)))
  end.

(** How an execution ends.  [trace] lists the nodes that completed,
    oldest first, and [state] is the state they left. *)
Inductive outcome :=
| Finished (trace : list node) (state : SummaryState)
    (output : SummaryStateOutput)
| Failed (trace : list node) (state : SummaryState) (at_node : node)
    (e : exn)
| OutOfFuel (trace : list node) (state : SummaryState).

Definition trace_of (o : outcome) : list node :=
  match o with
  | Finished tr _ _ | Failed tr _ _ _ | OutOfFuel tr _ => tr
  end.

Definition state_of (o : outcome) : SummaryState :=
  match o with
  | Finished _ st _ | Failed _ st _ _ | OutOfFuel _ st => st
  end.

(** Execution from node [n]; one unit of fuel per node.  [END] is
    reached from [finalize_summary_node] only, and the output is what
    that node computed from the state it received. *)
Fixpoint execute (fuel : nat) (n : node) (trace : list node)
    (state : SummaryState) (config : option RunnableConfig) : outcome :=
  match fuel with
  | O => OutOfFuel trace state
  | S fuel' =>
      match run_node n (length trace) state config with
      | Raise e => Failed trace state n e
      | Ok u =>
          let state' := apply_update state u in
          match successor n state' config with
          | Raise e => Failed trace state n e
          | Ok None =>
              Finished (trace ++ [n]) state'
                (Finalize.finalize_summary state)
          | Ok (Some n') => execute fuel' n' (trace ++ [n]) state' config
          end
      end
  end.

(** A run: the graph invoked on a topic. *)
Definition run (fuel : nat) (topic : option string)
    (config : option RunnableConfig) : outcome :=
  execute fuel generate_query_node [] (initial_state topic) config.

End Nodes.

(** Number of executions of [web_research] in a trace. *)
Definition web_research_steps (trace : list node) : nat :=
  length (filter (λ n, n = web_research_node) trace).

(** The invariant of section 3: the loop count and the lengths of the
    two result lists equal the number of completed searches. *)
Definition progress (trace : list node) (state : SummaryState) : Prop :=
  research_loop_count state = Z.of_nat (web_research_steps trace)
  ∧ length (web_research_results state) = web_research_steps trace
  ∧ length (sources_gathered state) = web_research_steps trace.

(** Searches of a run that reaches its end, for a maximum loop count. *)
Definition searches_of (max_loops : Z) : nat := S (Z.to_nat max_loops).

(** Where a run with [k] completed searches can stand. *)
Definition reachable (max_loops : Z) (n : node) (k : nat) : Prop :=
  match n with
  | generate_query_node => k = 0%nat
  | web_research_node => (k ≤ Z.to_nat max_loops)%nat
  | summarize_sources_node | reflect_on_summary_node =>
      (1 ≤ k ≤ searches_of max_loops)%nat
  | finalize_summary_node => k = searches_of max_loops
  end.

(** Nodes still to execute from node [n] after [k] searches, at most. *)
Definition nodes_left (max_loops : Z) (n : node) (k : nat) : nat :=
  match n with
  | generate_query_node => 3 * searches_of max_loops + 2
  | web_research_node => 3 * (searches_of max_loops - k) + 1
  | summarize_sources_node => 3 * (searches_of max_loops - k) + 3
  | reflect_on_summary_node => 3 * (searches_of max_loops - k) + 2
  | finalize_summary_node => 1
  end.

End Graph.

(** ** Concrete states, worlds and configurations *)

Module Examples.
Import PyStr Py Config Graph.

(** One entry, the same address twice, the second time indented. *)
Definition indented_duplicate : SummaryState :=
  mkState (Some "topic") VNone []
    ["http://a.example" +:+ NL +:+ " http://a.example"] 0 None.

(** Two entries without surrounding white space. *)
Definition two_entries : SummaryState :=
  mkState (Some "topic") VNone []
    ["http://a.example" +:+ NL +:+ "Some text"; "http://b.example"] 0 None.

(** A second iteration whose earlier summary is the empty string. *)
Definition empty_summary : SummaryState :=
  mkState (Some "topic") (VStr "q") ["results"] ["http://a.example"] 1
    (Some "").

(** A second iteration with a summary. *)
Definition with_summary : SummaryState :=
  mkState (Some "topic") (VStr "q") ["results"] ["http://a.example"] 1
    (Some "Earlier summary").

(** Validation that accepts values of the declared type only. *)
Definition plain_pydantic : Pydantic :=
  mkPydantic
    (λ v, match v with VNum z => Some z | _ => None end)
    (λ v, match v with VStr s => Some s | _ => None end)
    (λ v, match v with VBool b => Some b | _ => None end).

(** A world with an empty environment in which the model answers
    [reply t] and the search answers [found t] to the call made by
    node execution [t]. *)
Definition world_of (reply : nat → res AIMessage) (found : nat → res pyval)
    (loads : string → option pyval) : World :=
  {| environ := ∅;
     pydantic := plain_pydantic;
     invoke := λ t _ _, reply t;
     json_loads := loads;
     search := λ t _, found t;
     deduplicate_and_format_sources := λ _ _ _, Ok "formatted results";
     format_sources := λ _, Ok "http://a.example";
     get_config_value := id;
     strip_thinking_tokens_of := id;
     get_current_date := λ _, "January 01, 2026";
     query_writer_instructions := λ _ _, "Write a query.";
     reflection_instructions := λ _, "Find a gap.";
     summarizer_instructions := "Summarize.";
     json_mode_query_instructions := " Answer in JSON.";
     json_mode_reflection_instructions := " Answer in JSON.";
     tool_calling_query_instructions := " Call the tool.";
     tool_calling_reflection_instructions := " Call the tool." |}.

Definition service_down : exn := mkExn ServiceError "connection refused".

(** The model answers text that is no JSON; every search finds
    nothing. *)
Definition quiet_world : World :=
  world_of (λ _, Ok (mkAIMessage "no json" [])) (λ _, Ok (VList []))
    (λ _, None).

(** Neither the model nor the search service can be reached. *)
Definition offline_world : World :=
  world_of (λ _, Raise service_down) (λ _, Raise service_down) (λ _, None).

(** The model calls the tool with a rationale and no query. *)
Definition query_less_call : pyval :=
  VDict {[ "name" := VStr "Query";
           "args" := VDict {[ "rationale" := VStr "because" ]} ]}.

Definition tool_world : World :=
  world_of (λ _, Ok (mkAIMessage "" [query_less_call])) (λ _, Ok (VList []))
    (λ _, None).

Definition loops_config (max_loops : Z) : option RunnableConfig :=
  Some (mkRunnableConfig
          (Some {[ "max_web_research_loops" := VNum max_loops ]})).

Definition tool_config : option RunnableConfig :=
  Some (mkRunnableConfig (Some {[ "use_tool_calling" := VBool true ]})).


(** The configuration [loops_config max_loops] validates to. *)
Definition loops_configuration (max_loops : Z) : Configuration :=
  mkConfiguration max_loops "llama3.2" "duckduckgo" true
    "http://localhost:11434/" true false.

End Examples.

(** ** gemini_deep_researcher/configuration.py *)

Module GeminiConfig.
Import Py Config.

Record Configuration := mkConfiguration {
  max_web_research_loops : Z;
  llm_name : string;
  search_api : string;
  fetch_full_page : bool;
  strip_thinking_tokens : bool
}.

(** [cls.model_fields.keys()], in declaration order. *)
Definition model_fields : list string :=
  ["max_web_research_loops"; "llm_name"; "search_api"; "fetch_full_page";
   "strip_thinking_tokens"].

(** [os.environ.get(name.upper(), configurable.get(name))]: the
    environment first, the run configuration as its default. *)
Definition raw_value (cfg : gmap string pyval) (environ : gmap string string)
    (name : string) : pyval :=
  match environ !! upper name with
  | Some s => VStr s
  | None => default VNone (cfg !! name)
  end.

Definition raw_values (cfg : gmap string pyval) (environ : gmap string string)
  : gmap string pyval :=
  list_to_map ((λ name, (name, raw_value cfg environ name)) <$> model_fields).

(** The constructor call on the keyword arguments [values]. *)
Definition construct (pyd : Pydantic) (values : gmap string pyval)
  : res Configuration :=
  loops ← field values "max_web_research_loops" 3 (as_int pyd);
  llm ← field values "llm_name" "gemini-2.5-pro-preview-03-25" (as_str pyd);
  api ← field values "search_api" "duckduckgo" as_search_api;
  full ← field values "fetch_full_page" true (as_bool pyd);
  strip ← field values "strip_thinking_tokens" true (as_bool pyd);
  mret (mkConfiguration loops llm api full strip).

Definition from_runnable_config (pyd : Pydantic)
    (environ : gmap string string) (config : option RunnableConfig)
  : res Configuration :=
  let cfg := configurable_of config in
  construct pyd (not_none_values (raw_values cfg environ)).

#[global] Arguments from_runnable_config : simpl never.

End GeminiConfig.

(** ** api/main.py *)

Module Api.
Import PyStr Py Config Graph.

(** [ResearchResponse] of [api/models.py]. *)
Record ResearchResponse := mkResearchResponse {
  success : bool;
  summary : option string;
  sources : list string;
  error_message : option string
}.

(** [os.getenv(name, dflt)] *)
Definition getenv (environ : gmap string string) (name dflt : string) : string :=
  default dflt (environ !! name).

(** Lines 51-58: the run configuration the endpoint builds. *)
Definition request_config (environ : gmap string string)
  : option RunnableConfig :=
  Some (mkRunnableConfig
          (Some {[ "local_llm" := VStr (getenv environ "LLM_MODEL" "llama3.2");
                   "ollama_base_url" :=
                     VStr (getenv environ "OLLAMA_BASE_URL"
                             "http://localhost:11434/") ]})).

Definition timeout_response : ResearchResponse :=
  mkResearchResponse false None []
    (Some "Research request exceeded 5-minute timeout").

Definition internal_error_response (e : exn) : ResearchResponse :=
  mkResearchResponse false None [] (Some ("Internal error: " +:+ exn_msg e)).

(** Lines 67-72: the output of the graph mapped to the response. *)
Definition response_of_output (out : SummaryStateOutput) : ResearchResponse :=
  mkResearchResponse (out_success out) (Some (out_running_summary out))
    (out_sources out) (out_error_message out).

(** The endpoint.  [deadline] stands for the 300 seconds given to
    [asyncio.wait_for]: it is the number of node executions that
    complete before the time is over, and belongs to the world.  No kind
    of [exn] is a timeout, so an exception of the graph is handled by
    the second clause. *)
Definition run_research (w : World) (deadline : nat) (topic : string)
  : ResearchResponse :=
  match run w deadline (Some topic) (request_config (environ w)) with
  | Finished _ _ out => response_of_output out
  | OutOfFuel _ _ => timeout_response
  | Failed _ _ _ e => internal_error_response e
  end.

End Api.

(** ** The shape of a complete run *)

Module Shape.
Import Graph.

(** One pass through the loop. *)
Definition iteration : list node :=
  [web_research_node; summarize_sources_node; reflect_on_summary_node].

(** The nodes of a run with [k] searches, start to end. *)
Definition complete_trace (k : nat) : list node :=
  generate_query_node :: mjoin (replicate k iteration)
    ++ [finalize_summary_node].

(** The nodes completed when a run with maximum [max_loops] is about to
    execute node [n]. *)
Definition before (max_loops : Z) (n : node) (tr : list node) : Prop :=
  match n with
  | generate_query_node => tr = []
  | web_research_node =>
      ∃ k, (k ≤ Z.to_nat max_loops)%nat
           ∧ tr = generate_query_node :: mjoin (replicate k iteration)
  | summarize_sources_node =>
      ∃ k, (k ≤ Z.to_nat max_loops)%nat
           ∧ tr = generate_query_node :: mjoin (replicate k iteration)
                    ++ [web_research_node]
  | reflect_on_summary_node =>
      ∃ k, (k ≤ Z.to_nat max_loops)%nat
           ∧ tr = generate_query_node :: mjoin (replicate k iteration)
                    ++ [web_research_node; summarize_sources_node]
  | finalize_summary_node =>
      tr = generate_query_node
             :: mjoin (replicate (S (Z.to_nat max_loops)) iteration)
  end.

End Shape.

(** ** More worlds *)

Module Worlds.
Import PyStr Py Config Graph.

(** The model answers a JSON object whose query is the number 42. *)
Definition numeric_answer_world : World :=
  Examples.world_of (λ _, Ok (mkAIMessage "{query: 42}" []))
    (λ _, Ok (VList []))
    (λ s, if bool_decide (s = "{query: 42}")
          then Some (VDict {[ "query" := VNum 42 ]}) else None).

(** The model answers an empty JSON list. *)
Definition list_answer_world : World :=
  Examples.world_of (λ _, Ok (mkAIMessage "[]" [])) (λ _, Ok (VList []))
    (λ s, if bool_decide (s = "[]") then Some (VList []) else None).

(** The model works, every search raises. *)
Definition search_down_world : World :=
  Examples.world_of (λ _, Ok (mkAIMessage "no json" []))
    (λ _, Raise Examples.service_down) (λ _, None).

(** The model answers the empty string. *)
Definition silent_model_world : World :=
  Examples.world_of (λ _, Ok (mkAIMessage "" [])) (λ _, Ok (VList []))
    (λ _, None).

(** The value of a decimal digit. *)
Definition digit_of (c : ascii) : option Z :=
  let n := nat_of_ascii c in
  if ((48 <=? n) && (n <=? 57))%nat then Some (Z.of_nat (n - 48)) else None.

(** The number written by a string of decimal digits, after [acc]. *)
Fixpoint digits_value (acc : Z) (s : string) : option Z :=
  match s with
  | EmptyString => Some acc
  | String c r =>
      match digit_of c with
      | Some d => digits_value (10 * acc + d) r
      | None => None
      end
  end.

(** Validation that also reads an [int] field from a non-empty string
    of decimal digits, the way a value of the environment reaches
    it. *)
Definition lax_pydantic : Pydantic :=
  mkPydantic
    (λ v, match v with
          | VNum z => Some z
          | VStr (String c r) => digits_value 0 (String c r)
          | _ => None
          end)
    (λ v, match v with VStr s => Some s | _ => None end)
    (λ v, match v with VBool b => Some b | _ => None end).

(** One gathered entry with two addresses. *)
Definition one_entry : SummaryState :=
  mkState (Some "topic") VNone []
    ["http://a.example" +:+ NL +:+ "http://b.example"] 1 None.

End Worlds.

(** ** Stripped strings *)

Module Clean.
Import PyStr.

(** The string is empty or starts with a character that is no white
    space. *)
Definition starts_clean (s : string) : Prop :=
  match s with
  | EmptyString => True
  | String c _ => isspace c = false
  end.

End Clean.
(** * Properties *)

Import PyStr Py Config Graph.

(** ** Strings *)

Section StringFacts.

Lemma split_nl_nonempty (s : string) : split_nl s ≠ [].
Proof.
  induction s as [|c r IH]; simpl; [done|].
  destruct (is_nl c); [done|]. by destruct (split_nl r).
Qed.

Lemma split_nl_no_nl (s x : string) :
  x ∈ split_nl s → has_char nl_char x = false.
Proof.
  revert x. induction s as [|c r IH]; simpl; intros x Hx.
  - apply list_elem_of_singleton in Hx. by subst.
  - destruct (is_nl c) eqn:Hc.
    + apply elem_of_cons in Hx as [->|Hx]; [done|by apply IH].
    + destruct (split_nl r) as [|h t] eqn:Hr.
      { by destruct (split_nl_nonempty r). }
      apply elem_of_cons in Hx as [->|Hx].
      * simpl. unfold is_nl in Hc. rewrite Hc. simpl.
        apply IH. by left.
      * apply IH. by right.
Qed.

Lemma split_nl_single (s : string) :
  has_char nl_char s = false → split_nl s = [s].
Proof.
  induction s as [|c r IH]; simpl; [done|].
  intros H. apply orb_false_iff in H as [Hc Hr].
  unfold is_nl. rewrite Hc. by rewrite (IH Hr).
Qed.

Lemma truthy_length (s : string) :
  PyStr.truthy s = bool_decide (0 < String.length s)%nat.
Proof. by destruct s. Qed.

End StringFacts.

(** ** First-seen deduplication *)

Section FirstSeen.
Import Finalize.

Lemma first_seen_filter (P : string → Prop) `{!∀ x, Decision (P x)}
    (l : list string) :
  first_seen (filter P l) = filter P (first_seen l).
Proof.
  induction l as [|x l IH]; [done|].
  rewrite filter_cons. destruct (decide (P x)) as [HP|HP]; simpl.
  - rewrite filter_cons_True by done. f_equal.
    rewrite IH. rewrite !list_filter_filter. apply list_filter_iff.
    intros y. tauto.
  - rewrite filter_cons_False by done. rewrite IH.
    rewrite list_filter_filter. apply list_filter_iff.
    intros y. naive_solver.
Qed.

Lemma first_seen_elem_of (x : string) (l : list string) :
  x ∈ first_seen l ↔ x ∈ l.
Proof.
  induction l as [|y l IH]; [done|]. simpl.
  rewrite !elem_of_cons, list_elem_of_filter, IH.
  destruct (decide (x = y)); naive_solver.
Qed.

Lemma first_seen_NoDup (l : list string) : NoDup (first_seen l).
Proof.
  induction l as [|x l IH]; simpl; [constructor|].
  constructor; [|by apply NoDup_filter].
  rewrite list_elem_of_filter. naive_solver.
Qed.

Lemma first_seen_id (l : list string) : NoDup l → first_seen l = l.
Proof.
  induction 1 as [|x l Hx Hl IH]; simpl; [done|]. f_equal.
  rewrite IH. clear IH. induction l as [|y l IH]; [done|].
  apply not_elem_of_cons in Hx as [Hxy Hx]. apply NoDup_cons in Hl as [_ Hl].
  rewrite filter_cons_True by done. f_equal. by apply IH.
Qed.

(** The inner loop against a seen-set that mirrors the list built so
    far. *)
Lemma foldl_dedup_line (lines uniq : list string) :
  foldl dedup_line (list_to_set uniq, uniq) lines =
    let uniq' :=
      uniq ++ first_seen (filter (λ x, x ∉ uniq) (filter non_blank lines)) in
    (list_to_set uniq', uniq').
Proof.
  revert uniq. induction lines as [|line lines IH]; intros uniq; simpl.
  { by rewrite app_nil_r. }
  destruct (PyStr.truthy (strip line)) eqn:Hnb; simpl.
  - rewrite (filter_cons_True non_blank) by done.
    destruct (bool_decide (line ∈ list_to_set uniq)) eqn:Hin; simpl.
    + apply bool_decide_eq_true in Hin. apply elem_of_list_to_set in Hin.
      rewrite filter_cons_False by (by intros ?). apply IH.
    + apply bool_decide_eq_false in Hin.
      rewrite elem_of_list_to_set in Hin.
      rewrite filter_cons_True by done. simpl.
      replace (list_to_set uniq ∪ {[line]} : gset string)
        with (list_to_set (uniq ++ [line]) : gset string).
      2:{ rewrite list_to_set_app_L. simpl. set_solver. }
      assert (Hf : ∀ X : list string,
                 filter (λ y, y ≠ line) (filter (λ x, x ∉ uniq) X)
                 = filter (λ x, x ∉ uniq ++ [line]) X).
      { intros X. rewrite list_filter_filter. apply list_filter_iff.
        intros x. rewrite not_elem_of_app, list_elem_of_singleton. tauto. }
      rewrite IH. simpl. rewrite <- first_seen_filter, Hf.
      by rewrite <- !app_assoc.
  - rewrite (filter_cons_False non_blank).
    2:{ unfold non_blank. by rewrite Hnb. }
    apply IH.
Qed.

Lemma foldl_dedup_source (gathered : list string)
    (acc : gset string * list string) :
  foldl dedup_source acc gathered =
    foldl dedup_line acc (mjoin (split_nl <$> gathered)).
Proof.
  revert acc. induction gathered as [|source rest IH]; intros acc; [done|].
  simpl. rewrite foldl_app. apply IH.
Qed.

Lemma unique_sources_of_spec (gathered : list string) :
  unique_sources_of gathered = dedup_spec gathered.
Proof.
  unfold unique_sources_of, dedup_spec. rewrite foldl_dedup_source.
  change (∅ : gset string) with (list_to_set [] : gset string).
  rewrite foldl_dedup_line. simpl. f_equal.
  induction (filter non_blank _) as [|x l IH]; [done|].
  rewrite filter_cons_True by apply not_elem_of_nil. by rewrite IH.
Qed.


Lemma concat_split_nl_id (l : list string) :
  Forall (λ x, has_char nl_char x = false) l →
  mjoin (split_nl <$> l) = l.
Proof.
  induction 1 as [|x l Hx _ IH]; [done|].
  rewrite fmap_cons, (split_nl_single x Hx).
  change (mjoin ([x] :: (split_nl <$> l))) with (x :: mjoin (split_nl <$> l)).
  by rewrite IH.
Qed.

Lemma filter_Forall_id (P : string → Prop) `{!∀ x, Decision (P x)}
    (l : list string) :
  Forall P l → filter P l = l.
Proof.
  induction 1 as [|x l Hx _ IH]; [done|].
  by rewrite filter_cons_True, IH.
Qed.

Lemma dedup_spec_elem_of (gathered : list string) (line : string) :
  line ∈ dedup_spec gathered ↔
    non_blank line ∧ ∃ source, source ∈ gathered ∧ line ∈ split_nl source.
Proof.
  unfold dedup_spec.
  rewrite first_seen_elem_of, list_elem_of_filter, list_elem_of_join.
  split.
  - intros [Hnb (ls & Hl & Hls)]. split; [done|].
    apply list_elem_of_fmap in Hls as (source & -> & Hs). eauto.
  - intros [Hnb (source & Hs & Hl)]. split; [done|].
    exists (split_nl source). split; [done|].
    apply list_elem_of_fmap. eauto.
Qed.

End FirstSeen.

(** ** finalize_summary *)

Section FinalizeFacts.
Import Finalize.

Lemma source_urls_of_filter (unique_sources : list string) :
  source_urls_of unique_sources =
    strip <$> filter (λ line, startswith (strip line) "http" = true)
                unique_sources.
Proof.
  induction unique_sources as [|line rest IH]; [done|]. simpl.
  rewrite filter_cons. destruct (startswith (strip line) "http") eqn:Hs.
  - rewrite decide_True by done. simpl. by rewrite IH.
  - rewrite decide_False by done. apply IH.
Qed.

End FinalizeFacts.

(** C5. The deduplication loops of [finalize_summary] compute what the
    specification describes: every entry of [sources_gathered] is split
    into lines, lines that are blank once stripped are dropped, and of
    equal lines (compared unstripped, across all entries) the first one
    is kept, in order of first appearance.  The result has no
    duplicates, contains exactly the non-blank lines of the entries, and
    running the step on its own result returns that result. *)
Theorem dedup_first_seen_idempotent (gathered : list string) :
  let unique := Finalize.unique_sources_of gathered in
  unique = Finalize.first_seen
             (filter Finalize.non_blank (mjoin (split_nl <$> gathered)))
  ∧ NoDup unique
  ∧ (∀ line, line ∈ unique ↔
       Finalize.non_blank line
       ∧ ∃ source, source ∈ gathered ∧ line ∈ split_nl source)
  ∧ Finalize.unique_sources_of unique = unique.
Proof.
  simpl. rewrite unique_sources_of_spec.
  split; [done|]. split; [apply first_seen_NoDup|].
  split; [apply dedup_spec_elem_of|].
  rewrite unique_sources_of_spec.
  set (U := Finalize.dedup_spec gathered).
  unfold Finalize.dedup_spec at 1.
  rewrite concat_split_nl_id.
  2:{ apply Forall_forall. intros x Hx.
      apply dedup_spec_elem_of in Hx as [_ (source & _ & Hx)].
      by apply split_nl_no_nl in Hx. }
  rewrite filter_Forall_id.
  2:{ apply Forall_forall. intros x Hx.
      by apply dedup_spec_elem_of in Hx as [? _]. }
  apply first_seen_id, first_seen_NoDup.
Qed.

(** C3. The verdict of [finalize_summary]: [success] holds exactly when
    the running summary is set and longer than 50 characters and the
    list of extracted URLs is not empty; the error message is [None] on
    success, [Failed to generate summary] whenever the summary condition
    fails, and [No sources found] when only the sources are missing. *)
Theorem finalize_verdict (state : SummaryState) :
  let out := Finalize.finalize_summary state in
  let has_summary :=
    match running_summary state with
    | Some s => bool_decide (50 < String.length s)%nat
    | None => false
    end in
  let has_sources := negb (bool_decide (out_sources out = [])) in
  out_success out = has_summary && has_sources
  ∧ out_error_message out =
      if out_success out then None
      else if negb has_summary then Some "Failed to generate summary"
      else Some "No sources found".
Proof.
  simpl. unfold Finalize.has_summary_of, Finalize.has_sources_of,
    Finalize.error_message_of.
  set (urls := Finalize.source_urls_of _).
  assert (Hsrc : (0 <? Z.of_nat (length urls)) = negb (bool_decide (urls = []))).
  { by destruct urls. }
  rewrite Hsrc.
  assert (Hsum : match running_summary state with
                 | Some s => PyStr.truthy s && (50 <? Z.of_nat (String.length s))
                 | None => false
                 end
                 = match running_summary state with
                   | Some s => bool_decide (50 < String.length s)%nat
                   | None => false
                   end).
  { destruct (running_summary state) as [s|]; [|done].
    destruct s as [|c s]; [done|]. simpl PyStr.truthy. cbv beta iota.
    rewrite andb_true_l.
    destruct (bool_decide_reflect (50 < String.length (String c s))%nat);
      [apply Z.ltb_lt|apply Z.ltb_ge]; lia. }
  rewrite Hsum.
  destruct (match running_summary state with
            | Some s => bool_decide (50 < String.length s)%nat
            | None => false
            end), (bool_decide (urls = [])); done.
Qed.

(** C6, as the code has it.  The [sources] of the outcome are the
    stripped texts of the deduplicated lines whose stripped text starts
    with [http], in first-seen order; they are pairwise distinct whenever
    no two deduplicated lines have the same stripped text; and the
    formatted summary ends with all deduplicated lines, joined by line
    breaks, under the sources heading. *)
Theorem source_urls_stripped_http (state : SummaryState) :
  let unique := Finalize.unique_sources_of (sources_gathered state) in
  let out := Finalize.finalize_summary state in
  out_sources out =
    strip <$> filter (λ line, startswith (strip line) "http" = true) unique
  ∧ ((∀ l1 l2, l1 ∈ unique → l2 ∈ unique → strip l1 = strip l2 → l1 = l2) →
     NoDup (out_sources out))
  ∧ out_running_summary out =
      "## Summary" +:+ NL +:+ fmt_opt (running_summary state) +:+ NL +:+ NL
        +:+ " ### Sources:" +:+ NL +:+ join NL unique.
Proof.
  simpl. rewrite source_urls_of_filter. split; [done|]. split; [|done].
  intros Hinj. apply NoDup_fmap_2_strong.
  - intros x y [_ Hx]%list_elem_of_filter [_ Hy]%list_elem_of_filter.
    by apply Hinj.
  - apply NoDup_filter. rewrite unique_sources_of_spec.
    apply first_seen_NoDup.
Qed.

Lemma source_urls_stripped_http_witness :
  NoDup (out_sources (Finalize.finalize_summary Examples.two_entries)).
Proof.
  apply (source_urls_stripped_http Examples.two_entries).
  assert (Hu : Finalize.unique_sources_of
                 (sources_gathered Examples.two_entries)
               = ["http://a.example"; "Some text"; "http://b.example"]).
  { vm_compute. reflexivity. }
  rewrite Hu. intros l1 l2 H1 H2.
  repeat (apply elem_of_cons in H1 as [->|H1]);
    repeat (apply elem_of_cons in H2 as [->|H2]);
    try (by apply elem_of_nil in H1); try (by apply elem_of_nil in H2);
    vm_compute; congruence.
Defined.

(** C6, as the claim has it: two lines that differ in leading white
    space only are both kept by the deduplication and give the same
    address twice. *)
Lemma sources_repeat_after_strip :
  out_sources (Finalize.finalize_summary Examples.indented_duplicate)
    = ["http://a.example"; "http://a.example"]
  ∧ ¬ NoDup (out_sources (Finalize.finalize_summary Examples.indented_duplicate)).
Proof.
  assert (H : out_sources (Finalize.finalize_summary Examples.indented_duplicate)
              = ["http://a.example"; "http://a.example"]).
  { vm_compute. reflexivity. }
  split; [exact H|]. rewrite H. intros Hnd.
  apply NoDup_cons in Hnd as [Hn _]. apply Hn. by left.
Qed.

(** ** Configuration *)

Section ConfigFacts.

Lemma raw_values_lookup (cfg : gmap string pyval) (env : gmap string string)
    (name : string) :
  name ∈ model_fields →
  raw_values cfg env !! name = Some (raw_value cfg env name).
Proof.
  intros Hin. unfold raw_values. apply elem_of_list_to_map.
  - rewrite <- list_fmap_compose. simpl.
    change (compose _ _ <$> model_fields) with model_fields.
    unfold model_fields. repeat (apply NoDup_cons; split; [set_solver|]).
    constructor.
  - apply list_elem_of_fmap. eauto.
Qed.


End ConfigFacts.

Section ConfigRaises.





End ConfigRaises.

(** ** Nodes *)

Section NodeFacts.
Context (w : World) (config : option RunnableConfig).

Lemma web_research_ok (cfg : Configuration) (t : nat) (state : SummaryState) :
  from_runnable_config (pydantic w) (environ w) config = Ok cfg →
  ∃ source result,
    web_research w t state config =
      Ok (web_research_update source (research_loop_count state + 1) result).
Proof.
  intros Hc. unfold web_research. rewrite Hc. simpl.
  destruct (search_the_web w t state cfg _) as [[results str]|e]; simpl.
  - destruct (format_sources w results) as [src|e]; simpl; eauto.
  - eauto.
Qed.

Lemma web_research_shape (t : nat) (state : SummaryState) (u : Update) :
  web_research w t state config = Ok u →
  ∃ source result,
    u = web_research_update source (research_loop_count state + 1) result.
Proof.
  unfold web_research.
  destruct (from_runnable_config _ _ _) as [cfg|e] eqn:Hc; [|done].
  destruct (web_research_ok cfg t state Hc) as (src & r & H).
  unfold web_research in H. rewrite Hc in H. rewrite H.
  intros [= <-]. eauto.
Qed.

Lemma summarize_sources_ok (t : nat) (state : SummaryState) :
  ∃ s, summarize_sources w t state config = Ok (running_summary_update s).
Proof.
  unfold summarize_sources.
  destruct (index_last (web_research_results state)); simpl; [|eauto].
  destruct (from_runnable_config _ _ _); simpl; [|eauto].
  destruct (invoke w t _ _); simpl; eauto.
Qed.

Lemma structured_output_shape (t : nat) (cfg : Configuration)
    (messages : list Message) (tool_class fallback f1 f2 : string)
    (u : Update) :
  generate_search_query_with_structured_output w t cfg messages tool_class
    fallback f1 f2 = Ok u →
  ∃ q, u = search_query_update q.
Proof.
  unfold generate_search_query_with_structured_output, tool_calling_query,
    json_mode_query.
  destruct (use_tool_calling cfg).
  - destruct (invoke w t _ _) as [reply|e]; simpl; [|done].
    destruct (tool_calls reply) as [|c cs]; [intros [= <-]; eauto|].
    simpl. destruct (getitem c "args") as [d|e]; simpl.
    + destruct (get d f1) as [q|e]; simpl; [intros [= <-]; eauto|].
      case_bool_decide; [intros [= <-]; eauto|done].
    + case_bool_decide; [intros [= <-]; eauto|done].
  - destruct (invoke w t _ _) as [reply|e]; simpl; [|done].
    destruct (json_loads w (content reply)) as [v|]; simpl.
    + destruct (get v f2) as [q|e]; simpl.
      * destruct (truthy q); simpl; intros [= <-]; eauto.
      * case_bool_decide; [intros [= <-]; eauto|done].
    + intros [= <-]; eauto.
Qed.

Lemma generate_query_shape (t : nat) (state : SummaryState) (u : Update) :
  generate_query w t state config = Ok u → ∃ q, u = search_query_update q.
Proof.
  unfold generate_query.
  destruct (from_runnable_config _ _ _) as [cfg|e]; [|done]. simpl.
  apply structured_output_shape.
Qed.

Lemma reflect_on_summary_shape (t : nat) (state : SummaryState) (u : Update) :
  reflect_on_summary w t state config = Ok u → ∃ q, u = search_query_update q.
Proof.
  unfold reflect_on_summary.
  destruct (from_runnable_config _ _ _) as [cfg|e]; [|done]. simpl.
  apply structured_output_shape.
Qed.

End NodeFacts.

(** ** Runs *)

Section RunFacts.
Context (w : World) (config : option RunnableConfig).

Lemma web_research_steps_snoc (trace : list node) (n : node) :
  web_research_steps (trace ++ [n]) =
    (web_research_steps trace
     + if bool_decide (n = web_research_node) then 1 else 0)%nat.
Proof.
  unfold web_research_steps. rewrite filter_app, length_app. f_equal.
  rewrite filter_cons. simpl. by repeat case_decide; case_bool_decide.
Qed.

Lemma run_node_shape (n : node) (t : nat) (state : SummaryState) (u : Update) :
  run_node w n t state config = Ok u →
  if bool_decide (n = web_research_node)
  then ∃ source result,
         u = web_research_update source (research_loop_count state + 1) result
  else upd_sources_gathered u = [] ∧ upd_web_research_results u = []
       ∧ upd_research_loop_count u = None.
Proof.
  destruct n; simpl; intros H.
  - apply generate_query_shape in H as [q ->]. done.
  - by apply web_research_shape in H.
  - destruct (summarize_sources_ok w config t state) as [s Hs].
    rewrite Hs in H. by injection H as <-.
  - apply reflect_on_summary_shape in H as [q ->]. done.
  - by injection H as <-.
Qed.

Lemma run_node_progress (n : node) (t : nat) (trace : list node)
    (state : SummaryState) (u : Update) :
  progress trace state →
  run_node w n t state config = Ok u →
  progress (trace ++ [n]) (apply_update state u).
Proof.
  intros (Hc & Hr & Hs) H. apply run_node_shape in H.
  unfold progress. rewrite web_research_steps_snoc.
  case_bool_decide.
  - destruct H as (src & r & ->). simpl. rewrite !length_app. simpl. lia.
  - destruct H as (H1 & H2 & H3). simpl. rewrite H1, H2, H3. simpl.
    rewrite !app_nil_r. lia.
Qed.

Lemma execute_progress (fuel : nat) (n : node) (trace : list node)
    (state : SummaryState) :
  progress trace state →
  let o := execute w fuel n trace state config in
  progress (trace_of o) (state_of o).
Proof.
  revert n trace state. induction fuel as [|fuel IH]; intros n trace state Hp.
  { done. }
  simpl. destruct (run_node w n (length trace) state config) as [u|e] eqn:Hu.
  2:{ done. }
  pose proof (run_node_progress _ _ _ _ _ Hp Hu) as Hp'.
  destruct (successor w n (apply_update state u) config) as [[n'|]|e].
  - by apply IH.
  - done.
  - done.
Qed.

Lemma progress_initial (topic : option string) :
  progress [] (initial_state topic).
Proof. repeat split. Qed.

Lemma run_progress (fuel : nat) (topic : option string) :
  let o := run w fuel topic config in
  progress (trace_of o) (state_of o).
Proof.
  unfold run. apply execute_progress. apply progress_initial.
Qed.

End RunFacts.

Section LoopBound.
Context (w : World) (config : option RunnableConfig) (cfg : Configuration).
Hypothesis Hcfg :
  from_runnable_config (pydantic w) (environ w) config = Ok cfg.

Let max_loops := max_web_research_loops cfg.

Lemma route_research_eq (state : SummaryState) :
  route_research w state config =
    Ok (if research_loop_count state <=? max_loops
        then web_research_node else finalize_summary_node).
Proof.
  unfold route_research. rewrite Hcfg. simpl.
  by destruct (research_loop_count state <=? _).
Qed.

(** The node that follows [n], once [n] has completed in a state
    satisfying the invariant, is reachable too. *)
Lemma successor_reachable (n n' : node) (trace : list node)
    (state : SummaryState) :
  progress (trace ++ [n]) state →
  reachable max_loops n (web_research_steps trace) →
  successor w n state config = Ok (Some n') →
  reachable max_loops n' (web_research_steps (trace ++ [n]))
  ∧ (nodes_left max_loops n' (web_research_steps (trace ++ [n]))
     < nodes_left max_loops n (web_research_steps trace))%nat.
Proof.
  intros (Hc & _ & _) Hr Hs. revert Hc.
  rewrite web_research_steps_snoc.
  set (k := web_research_steps trace) in *.
  unfold reachable, nodes_left, searches_of in *.
  destruct n; simpl in Hs.
  - injection Hs as <-. simpl. lia.
  - injection Hs as <-. simpl. lia.
  - injection Hs as <-. simpl. lia.
  - rewrite route_research_eq in Hs. simpl in Hs. injection Hs as <-.
    simpl. rewrite Nat.add_0_r. intros Hc. rewrite Hc.
    destruct (Z.leb_spec (Z.of_nat k) max_loops); lia.
  - done.
Qed.

Lemma successor_end (n : node) (state : SummaryState) :
  successor w n state config = Ok None → n = finalize_summary_node.
Proof.
  destruct n; unfold successor.
  - intros [=].
  - intros [=].
  - intros [=].
  - rewrite route_research_eq. intros [=].
  - reflexivity.
Qed.

Lemma execute_finished_steps (fuel : nat) (n : node) (trace : list node)
    (state : SummaryState) (trace' : list node) (state' : SummaryState)
    (out : SummaryStateOutput) :
  progress trace state →
  reachable max_loops n (web_research_steps trace) →
  execute w fuel n trace state config = Finished trace' state' out →
  web_research_steps trace' = searches_of max_loops.
Proof.
  revert n trace state.
  induction fuel as [|fuel IH]; intros n trace state Hp Hr; [done|].
  simpl. destruct (run_node w n (length trace) state config) as [u|e] eqn:Hu.
  2:{ done. }
  pose proof (run_node_progress w config _ _ _ _ _ Hp Hu) as Hp'.
  destruct (successor w n (apply_update state u) config) as [[n'|]|e] eqn:Hs.
  - destruct (successor_reachable _ _ _ _ Hp' Hr Hs) as [Hr' _].
    by apply IH.
  - apply successor_end in Hs as ->. intros [= <- _ _].
    rewrite web_research_steps_snoc. simpl in *. lia.
  - done.
Qed.

Lemma execute_enough_fuel (fuel : nat) (n : node) (trace : list node)
    (state : SummaryState) :
  progress trace state →
  reachable max_loops n (web_research_steps trace) →
  (nodes_left max_loops n (web_research_steps trace) ≤ fuel)%nat →
  ∀ tr st, execute w fuel n trace state config ≠ OutOfFuel tr st.
Proof.
  revert n trace state.
  induction fuel as [|fuel IH]; intros n trace state Hp Hr Hf tr st.
  { destruct n; unfold nodes_left in Hf; lia. }
  simpl. destruct (run_node w n (length trace) state config) as [u|e] eqn:Hu.
  2:{ done. }
  pose proof (run_node_progress w config _ _ _ _ _ Hp Hu) as Hp'.
  destruct (successor w n (apply_update state u) config) as [[n'|]|e] eqn:Hs.
  - destruct (successor_reachable _ _ _ _ Hp' Hr Hs) as [Hr' Hlt].
    apply IH; [done|done|lia].
  - done.
  - done.
Qed.

End LoopBound.

(** ** Sample runs *)

Example quiet_run_two_loops :
  ∃ st out,
    run Examples.quiet_world 20 (Some "topic") (Examples.loops_config 1)
    = Finished
        [generate_query_node;
         web_research_node; summarize_sources_node; reflect_on_summary_node;
         web_research_node; summarize_sources_node; reflect_on_summary_node;
         finalize_summary_node] st out
    ∧ research_loop_count st = 2
    ∧ out_sources out = ["http://a.example"].
Proof. eexists _, _. vm_compute. done. Qed.

Example loops_config_validates (max_loops : Z) :
  from_runnable_config Examples.plain_pydantic ∅ (Examples.loops_config max_loops)
  = Ok (Examples.loops_configuration max_loops).
Proof. vm_compute. reflexivity. Qed.

(** ** The claims about the loop *)

(** C1. One execution of [web_research] that completes returns exactly
    one entry for [sources_gathered], exactly one for
    [web_research_results] and the loop count plus one, on the success
    branch and on the error branch alike; it completes whenever the
    configuration validates.  Hence, at every point of every run, with
    [n] the number of completed [web_research] steps, the loop count is
    [n] and both lists have length [n]. *)
Theorem web_research_progress (w : World) (config : option RunnableConfig) :
  (∀ t state u,
     web_research w t state config = Ok u →
     (∃ source result,
        u = web_research_update source (research_loop_count state + 1) result)
     ∧ length (sources_gathered (apply_update state u))
       = S (length (sources_gathered state))
     ∧ length (web_research_results (apply_update state u))
       = S (length (web_research_results state))
     ∧ research_loop_count (apply_update state u)
       = research_loop_count state + 1)
  ∧ (∀ cfg t state,
       from_runnable_config (pydantic w) (environ w) config = Ok cfg →
       match search_the_web w t state cfg (get_config_value w (search_api cfg))
       with
       | Raise e =>
           web_research w t state config
           = Ok (web_research_update "Error fetching sources"
                   (research_loop_count state + 1)
                   ("Search failed: " +:+ exn_msg e))
       | Ok (search_results, search_str) =>
           match format_sources w search_results with
           | Ok sources =>
               web_research w t state config
               = Ok (web_research_update sources
                       (research_loop_count state + 1) search_str)
           | Raise e =>
               web_research w t state config
               = Ok (web_research_update "Error fetching sources"
                       (research_loop_count state + 1)
                       ("Search failed: " +:+ exn_msg e))
           end
       end)
  ∧ (∀ fuel topic,
       let o := run w fuel topic config in
       let n := web_research_steps (trace_of o) in
       research_loop_count (state_of o) = Z.of_nat n
       ∧ length (web_research_results (state_of o)) = n
       ∧ length (sources_gathered (state_of o)) = n).
Proof.
  split; [|split].
  - intros t state u Hu.
    destruct (web_research_shape w config t state u Hu) as (src & r & ->).
    split; [eauto|]. simpl. rewrite !length_app. simpl. lia.
  - intros cfg t state Hc. unfold web_research. rewrite Hc. simpl.
    destruct (search_the_web w t state cfg _) as [[results str]|e]; simpl.
    + by destruct (format_sources w results).
    + done.
  - intros fuel topic. exact (run_progress w config fuel topic).
Qed.

(** C2, as the code has it.  With a configuration that validates,
    [route_research] answers [web_research] exactly when the loop count
    is at most the maximum and [finalize_summary] exactly when it
    exceeds it; a run given enough fuel does not run out of it; and a
    run that reaches its end has executed [web_research] [max + 1] times
    when the maximum is not negative, and once when it is. *)
Theorem route_research_rule (w : World) (config : option RunnableConfig)
    (cfg : Configuration) :
  from_runnable_config (pydantic w) (environ w) config = Ok cfg →
  let max_loops := max_web_research_loops cfg in
  (∀ state,
     (route_research w state config = Ok web_research_node
      ↔ research_loop_count state ≤ max_loops)
     ∧ (route_research w state config = Ok finalize_summary_node
        ↔ max_loops < research_loop_count state))
  ∧ (∀ fuel topic tr st,
       (3 * S (Z.to_nat max_loops) + 2 ≤ fuel)%nat →
       run w fuel topic config ≠ OutOfFuel tr st)
  ∧ (∀ fuel topic trace st out,
       run w fuel topic config = Finished trace st out →
       Z.of_nat (web_research_steps trace) = Z.max 1 (max_loops + 1)).
Proof.
  intros Hc max_loops. split; [|split].
  - intros state. rewrite (route_research_eq w config cfg Hc).
    fold max_loops. clear Hc.
    destruct (Z.leb_spec (research_loop_count state) max_loops).
    + split; split; [done|reflexivity|intros [=]|lia].
    + split; split; [intros [=]|lia|done|reflexivity].
  - intros fuel topic tr st Hf. unfold run.
    apply (execute_enough_fuel w config cfg Hc).
    + apply progress_initial.
    + reflexivity.
    + exact Hf.
  - intros fuel topic trace st out Hrun. unfold run in Hrun.
    rewrite (execute_finished_steps w config cfg Hc fuel generate_query_node
               [] (initial_state topic) trace st out
               (progress_initial topic) (eq_refl 0%nat) Hrun).
    fold max_loops. unfold searches_of. lia.
Qed.

Lemma route_research_rule_witness :
  ∃ trace st out,
    run Examples.quiet_world 20 (Some "topic") (Examples.loops_config 1)
    = Finished trace st out
    ∧ Z.of_nat (web_research_steps trace) = Z.max 1 (1 + 1).
Proof.
  destruct (route_research_rule Examples.quiet_world (Examples.loops_config 1)
              (Examples.loops_configuration 1)) as (_ & _ & Hsteps).
  - vm_compute. reflexivity.
  - eexists _, _, _. split; [vm_compute; reflexivity|].
    eapply (Hsteps 20%nat (Some "topic")). vm_compute. reflexivity.
Defined.

(** C2, as the claim has it: with a maximum of [-1] the run searches
    once, not [max + 1 = 0] times. *)
Lemma negative_maximum_searches_once :
  from_runnable_config (pydantic Examples.quiet_world)
    (environ Examples.quiet_world) (Examples.loops_config (-1))
  = Ok (Examples.loops_configuration (-1))
  ∧ ∃ trace st out,
      run Examples.quiet_world 5 (Some "topic") (Examples.loops_config (-1))
      = Finished trace st out
      ∧ web_research_steps trace = 1%nat
      ∧ Z.of_nat (web_research_steps trace)
        ≠ max_web_research_loops (Examples.loops_configuration (-1)) + 1.
Proof.
  split; [vm_compute; reflexivity|].
  eexists _, _, _. split; [vm_compute; reflexivity|].
  split; [vm_compute; reflexivity|]. vm_compute. discriminate.
Qed.

(** ** The claims about the query extractor *)

(** C4, at a failing input.  In tool-calling mode the model calls the
    tool with arguments that lack the field [query]: the node sets the
    search query to [None], not to the fallback string. *)
Theorem tool_call_without_field_gives_none :
  from_runnable_config (pydantic Examples.tool_world)
    (environ Examples.tool_world) Examples.tool_config
  = Ok (mkConfiguration 3 "llama3.2" "duckduckgo" true
          "http://localhost:11434/" true true)
  ∧ generate_query Examples.tool_world 0 (initial_state (Some "topic"))
      Examples.tool_config
    = Ok (search_query_update VNone)
  ∧ search_query_update VNone
    ≠ search_query_update (VStr "Tell me more about topic").
Proof.
  split; [vm_compute; reflexivity|].
  split; [vm_compute; reflexivity|]. intros [=].
Qed.



(** C7. The claim fails where the answer parses to a value that is no
    object.  In JSON mode the model answers the text of an empty list:
    parsing succeeds and the field [query] is missing, yet
    [generate_query] does not set the fallback query, it raises an
    [AttributeError] that the handler for decoding and key errors lets
    through. *)
Theorem parsed_list_answer_raises :
  from_runnable_config (pydantic Worlds.list_answer_world)
    (environ Worlds.list_answer_world) (Examples.loops_config 3)
  = Ok (Examples.loops_configuration 3)
  ∧ use_tool_calling (Examples.loops_configuration 3) = false
  ∧ invoke Worlds.list_answer_world 0
      (get_llm (Examples.loops_configuration 3)) []
    = Ok (mkAIMessage "[]" [])
  ∧ json_loads Worlds.list_answer_world "[]" = Some (VList [])
  ∧ (∃ e, generate_query Worlds.list_answer_world 0
            (initial_state (Some "topic")) (Examples.loops_config 3)
          = Raise e
          ∧ exn_kind_of e = AttributeError)
  ∧ generate_query Worlds.list_answer_world 0 (initial_state (Some "topic"))
      (Examples.loops_config 3)
    ≠ Ok (search_query_update (VStr "Tell me more about topic")).
Proof.
  assert (Hq : generate_query Worlds.list_answer_world 0
                 (initial_state (Some "topic")) (Examples.loops_config 3)
               = Raise (mkExn AttributeError "object has no attribute get")).
  { vm_compute. reflexivity. }
  split; [vm_compute; reflexivity|].
  split; [reflexivity|]. split; [reflexivity|]. split; [reflexivity|].
  split.
  - eexists. split; [exact Hq|reflexivity].
  - rewrite Hq. intros [=].
Qed.

(** ** The claims about summarization *)

(** C9, as the code has it.  When the model call of [summarize_sources]
    raises, the node returns normally; the running summary keeps its
    value when that value is a non-empty string, and becomes
    [Summary generation failed] when it is [None] or the empty
    string. *)
Theorem summarize_failure_keeps_or_replaces (w : World)
    (config : option RunnableConfig) (t : nat) (state : SummaryState) :
  (∀ llm messages, ∃ e, invoke w t llm messages = Raise e) →
  ∃ u, summarize_sources w t state config = Ok u
       ∧ (∀ s, running_summary state = Some s → s ≠ "" →
            upd_running_summary u = Some s
            ∧ running_summary (apply_update state u) = running_summary state)
       ∧ (running_summary state = None ∨ running_summary state = Some "" →
            upd_running_summary u = Some "Summary generation failed"
            ∧ running_summary (apply_update state u)
              = Some "Summary generation failed").
Proof.
  intros Hdown.
  exists (running_summary_update (summary_or_placeholder (running_summary state))).
  split.
  - unfold summarize_sources.
    destruct (index_last (web_research_results state)); simpl; [|done].
    destruct (from_runnable_config _ _ _) as [cfg|e]; simpl; [|done].
    match goal with
    | |- context [invoke w t ?llm ?msgs] =>
        destruct (Hdown llm msgs) as [e He]; rewrite He
    end.
    reflexivity.
  - split.
    + intros s Hs Hne. simpl. rewrite Hs. simpl.
      destruct s; [done|]. done.
    + intros [Hs|Hs]; simpl; rewrite Hs; done.
Qed.

Lemma summarize_failure_keeps_or_replaces_witness :
  ∃ u, summarize_sources Examples.offline_world 4 Examples.with_summary
         (Examples.loops_config 3) = Ok u
       ∧ upd_running_summary u = Some "Earlier summary".
Proof.
  destruct (summarize_failure_keeps_or_replaces Examples.offline_world
              (Examples.loops_config 3) 4 Examples.with_summary)
    as (u & Hu & Hkeep & _).
  - intros llm messages. exists Examples.service_down. reflexivity.
  - exists u. split; [exact Hu|].
    apply (Hkeep "Earlier summary"); [reflexivity|discriminate].
Defined.

(** C9, as the claim has it: a summary that was set to the empty string
    is not left unchanged when the model call raises. *)
Lemma empty_summary_is_replaced :
  (∀ llm messages,
     invoke Examples.offline_world 4 llm messages = Raise Examples.service_down)
  ∧ running_summary Examples.empty_summary = Some ""
  ∧ ∃ u, summarize_sources Examples.offline_world 4 Examples.empty_summary
           (Examples.loops_config 3) = Ok u
         ∧ running_summary (apply_update Examples.empty_summary u)
           = Some "Summary generation failed"
         ∧ running_summary (apply_update Examples.empty_summary u)
           ≠ running_summary Examples.empty_summary.
Proof.
  split; [reflexivity|]. split; [reflexivity|].
  eexists. split; [vm_compute; reflexivity|].
  split; [reflexivity|]. simpl. discriminate.
Qed.

(** C10. [summarize_sources] returns an update of the running summary
    for every state, configuration and world, and never raises; with no
    research result at all it returns what the error handler returns;
    and when the model call raises while the running summary is the
    empty string, the summary becomes [Summary generation failed]. *)
Theorem summarize_sources_total (w : World) (config : option RunnableConfig)
    (t : nat) (state : SummaryState) :
  (∃ s, summarize_sources w t state config = Ok (running_summary_update s))
  ∧ (web_research_results state = [] →
     summarize_sources w t state config
     = Ok (running_summary_update
             match running_summary state with
             | Some s => if PyStr.truthy s then s else "Summary generation failed"
             | None => "Summary generation failed"
             end))
  ∧ ((∀ llm messages, ∃ e, invoke w t llm messages = Raise e) →
     running_summary state = Some "" →
     summarize_sources w t state config
     = Ok (running_summary_update "Summary generation failed")).
Proof.
  split; [apply summarize_sources_ok|]. split.
  - intros Hnil. unfold summarize_sources. rewrite Hnil. reflexivity.
  - intros Hdown Hs. unfold summarize_sources.
    destruct (index_last (web_research_results state)); simpl;
      [|by rewrite Hs].
    destruct (from_runnable_config _ _ _) as [cfg|e]; simpl; [|by rewrite Hs].
    match goal with
    | |- context [invoke w t ?llm ?msgs] =>
        destruct (Hdown llm msgs) as [e He]; rewrite He
    end.
    simpl. by rewrite Hs.
Qed.

Lemma summarize_sources_total_witness :
  summarize_sources Examples.quiet_world 1 (initial_state (Some "topic"))
    (Examples.loops_config 3)
  = Ok (running_summary_update "Summary generation failed").
Proof.
  destruct (summarize_sources_total Examples.quiet_world
              (Examples.loops_config 3) 1 (initial_state (Some "topic")))
    as (_ & Hempty & _).
  apply Hempty. reflexivity.
Defined.

(** ** The claim about errors that end a run *)

Section Propagation.
Context (w : World) (config : option RunnableConfig).

Lemma structured_output_propagates (t : nat) (cfg : Configuration)
    (messages : list Message) (tool_class fallback f1 f2 : string) (e : exn) :
  (∀ llm msgs, invoke w t llm msgs = Raise e) →
  generate_search_query_with_structured_output w t cfg messages tool_class
    fallback f1 f2 = Raise e.
Proof.
  intros Hdown.
  unfold generate_search_query_with_structured_output, tool_calling_query,
    json_mode_query.
  destruct (use_tool_calling cfg); by rewrite Hdown.
Qed.



End Propagation.




(** * Further properties of the code *)

(** ** Loading the configuration *)

Section ConfigResolution.
Context (pyd : Pydantic) (env : gmap string string).

Lemma values_lookup (cfg : gmap string pyval) (name : string) :
  name ∈ model_fields →
  not_none_values (raw_values cfg env) !! name
  = if is_none (raw_value cfg env name) then None
    else Some (raw_value cfg env name).
Proof.
  intros Hin. unfold not_none_values.
  destruct (is_none (raw_value cfg env name)) eqn:Hn.
  - apply map_lookup_filter_None. right. intros v Hv.
    rewrite (raw_values_lookup cfg env name Hin) in Hv.
    injection Hv as <-. simpl. by rewrite Hn.
  - apply map_lookup_filter_Some. split; [|done].
    by apply raw_values_lookup.
Qed.

Lemma field_ok {A} (values : gmap string pyval) (name : string) (dflt a : A)
    (conv : pyval → option A) :
  field values name dflt conv = Ok a →
  match values !! name with
  | Some v => conv v = Some a
  | None => a = dflt
  end.
Proof.
  unfold field. destruct (values !! name) as [v|].
  - destruct (conv v); [by intros [= ->]|]. unfold raise. intros [=].
  - by intros [= ->].
Qed.

Lemma construct_ok (values : gmap string pyval) (cfg : Configuration) :
  construct pyd values = Ok cfg →
  field values "max_web_research_loops" 3 (as_int pyd)
  = Ok (max_web_research_loops cfg)
  ∧ field values "local_llm" "llama3.2" (as_str pyd) = Ok (local_llm cfg)
  ∧ field values "search_api" "duckduckgo" as_search_api = Ok (search_api cfg)
  ∧ field values "fetch_full_page" true (as_bool pyd) = Ok (fetch_full_page cfg)
  ∧ field values "ollama_base_url" "http://localhost:11434/" (as_str pyd)
    = Ok (ollama_base_url cfg)
  ∧ field values "strip_thinking_tokens" true (as_bool pyd)
    = Ok (strip_thinking_tokens cfg)
  ∧ field values "use_tool_calling" false (as_bool pyd)
    = Ok (use_tool_calling cfg).
Proof.
  unfold construct, mbind, res_bind, mret, res_ret.
  repeat (match goal with
          | |- context [match field ?v ?n ?d ?c with _ => _ end] =>
              destruct (field v n d c); [|intros [=]]
          end).
  intros [= <-]. simpl. repeat split.
Qed.

End ConfigResolution.

(** X1. Where the loop maximum comes from: the entry of the run
    configuration if there is one, else the environment variable
    [MAX_WEB_RESEARCH_LOOPS], else the default 3.  An entry that is
    present with the value [None] hides the environment variable and
    gives the default. *)
Theorem loop_maximum_resolution (pyd : Pydantic) (env : gmap string string)
    (config : option RunnableConfig) (cfg : Configuration) :
  from_runnable_config pyd env config = Ok cfg →
  match configurable_of config !! "max_web_research_loops" with
  | Some VNone => max_web_research_loops cfg = 3
  | Some v => as_int pyd v = Some (max_web_research_loops cfg)
  | None =>
      match env !! "MAX_WEB_RESEARCH_LOOPS" with
      | Some s => as_int pyd (VStr s) = Some (max_web_research_loops cfg)
      | None => max_web_research_loops cfg = 3
      end
  end.
Proof.
  unfold from_runnable_config. intros Hc.
  apply construct_ok in Hc as (Hf & _). apply field_ok in Hf.
  rewrite values_lookup in Hf by set_solver.
  unfold raw_value in Hf.
  change (env_name_of env_mappings "max_web_research_loops")
    with (@None string) in Hf.
  change (upper "max_web_research_loops") with "MAX_WEB_RESEARCH_LOOPS" in Hf.
  destruct (configurable_of config !! "max_web_research_loops") as [v|].
  - destruct v; simpl in Hf; done.
  - destruct (env !! "MAX_WEB_RESEARCH_LOOPS"); simpl in Hf; done.
Qed.

Lemma loop_maximum_resolution_witness :
  from_runnable_config Examples.plain_pydantic
    {[ "MAX_WEB_RESEARCH_LOOPS" := "5" ]} (Examples.loops_config 7)
  = Ok (Examples.loops_configuration 7)
  ∧ as_int Examples.plain_pydantic (VNum 7)
    = Some (max_web_research_loops (Examples.loops_configuration 7)).
Proof.
  pose proof (loop_maximum_resolution Examples.plain_pydantic
                {[ "MAX_WEB_RESEARCH_LOOPS" := "5" ]} (Examples.loops_config 7)
                (Examples.loops_configuration 7)) as H.
  assert (Hc : from_runnable_config Examples.plain_pydantic
                 {[ "MAX_WEB_RESEARCH_LOOPS" := "5" ]} (Examples.loops_config 7)
               = Ok (Examples.loops_configuration 7)).
  { vm_compute. reflexivity. }
  split; [exact Hc|exact (H Hc)].
Defined.

(** X2. Where the model name comes from: the entry [local_llm] of the
    run configuration, else the variable [LLM_MODEL], else the variable
    [LOCAL_LLM], else the default; [LLM_MODEL] wins over [LOCAL_LLM]. *)
Theorem model_name_resolution (pyd : Pydantic) (env : gmap string string)
    (config : option RunnableConfig) (cfg : Configuration) :
  from_runnable_config pyd env config = Ok cfg →
  match configurable_of config !! "local_llm" with
  | Some VNone => local_llm cfg = "llama3.2"
  | Some v => as_str pyd v = Some (local_llm cfg)
  | None =>
      match env !! "LLM_MODEL" with
      | Some s => as_str pyd (VStr s) = Some (local_llm cfg)
      | None =>
          match env !! "LOCAL_LLM" with
          | Some s => as_str pyd (VStr s) = Some (local_llm cfg)
          | None => local_llm cfg = "llama3.2"
          end
      end
  end.
Proof.
  unfold from_runnable_config. intros Hc.
  apply construct_ok in Hc as (_ & Hf & _). apply field_ok in Hf.
  rewrite values_lookup in Hf by set_solver.
  unfold raw_value in Hf.
  change (env_name_of env_mappings "local_llm") with (Some "LLM_MODEL") in Hf.
  change (upper "local_llm") with "LOCAL_LLM" in Hf.
  destruct (configurable_of config !! "local_llm") as [v|].
  - destruct v; simpl in Hf; done.
  - destruct (env !! "LLM_MODEL"); simpl in Hf; [done|].
    destruct (env !! "LOCAL_LLM"); simpl in Hf; done.
Qed.

Lemma model_name_resolution_witness :
  from_runnable_config Examples.plain_pydantic
    {[ "LLM_MODEL" := "from-llm-model"; "LOCAL_LLM" := "from-local-llm" ]} None
  = Ok (mkConfiguration 3 "from-llm-model" "duckduckgo" true
          "http://localhost:11434/" true false)
  ∧ as_str Examples.plain_pydantic (VStr "from-llm-model")
    = Some "from-llm-model".
Proof.
  pose proof (model_name_resolution Examples.plain_pydantic
                {[ "LLM_MODEL" := "from-llm-model";
                   "LOCAL_LLM" := "from-local-llm" ]} None
                (mkConfiguration 3 "from-llm-model" "duckduckgo" true
                   "http://localhost:11434/" true false)) as H.
  assert (Hc : from_runnable_config Examples.plain_pydantic
                 {[ "LLM_MODEL" := "from-llm-model";
                    "LOCAL_LLM" := "from-local-llm" ]} None
               = Ok (mkConfiguration 3 "from-llm-model" "duckduckgo" true
                       "http://localhost:11434/" true false)).
  { vm_compute. reflexivity. }
  split; [exact Hc|exact (H Hc)].
Defined.

(** X3. Entries of the run configuration whose key is no field of
    [Configuration] have no effect on the configuration that is
    loaded. *)
Theorem unknown_keys_are_ignored (pyd : Pydantic) (env : gmap string string)
    (d : gmap string pyval) (key : string) (v : pyval) :
  key ∉ model_fields →
  from_runnable_config pyd env (Some (mkRunnableConfig (Some (<[key:=v]> d))))
  = from_runnable_config pyd env (Some (mkRunnableConfig (Some d))).
Proof.
  intros Hkey. unfold from_runnable_config, configurable_of. simpl.
  f_equal. f_equal. unfold raw_values. f_equal.
  apply list_fmap_ext. intros i name Hname.
  apply list_elem_of_lookup_2 in Hname. f_equal.
  unfold raw_value. rewrite lookup_insert_ne; [done|].
  intros ->. contradiction.
Qed.

Lemma unknown_keys_are_ignored_witness :
  ("recursion_limit" ∉ model_fields)
  ∧ from_runnable_config Examples.plain_pydantic ∅
      (Some (mkRunnableConfig
               (Some (<["recursion_limit" := VNum 50]>
                        {[ "max_web_research_loops" := VNum 2 ]}))))
    = from_runnable_config Examples.plain_pydantic ∅ (Examples.loops_config 2).
Proof.
  assert (H : "recursion_limit" ∉ model_fields).
  { set_solver. }
  split; [exact H|].
  apply (unknown_keys_are_ignored Examples.plain_pydantic ∅
           {[ "max_web_research_loops" := VNum 2 ]} "recursion_limit"
           (VNum 50) H).
Defined.

Lemma search_api_literal (pyd : Pydantic) (env : gmap string string)
    (config : option RunnableConfig) (cfg : Configuration) :
  from_runnable_config pyd env config = Ok cfg →
  search_api cfg ∈ search_api_literals.
Proof.
  unfold from_runnable_config. intros Hc.
  apply construct_ok in Hc as (_ & _ & Hf & _). apply field_ok in Hf.
  destruct (_ !! "search_api") as [v|].
  - unfold as_search_api in Hf. destruct v; try discriminate.
    case_bool_decide; [|discriminate]. by injection Hf as <-.
  - rewrite Hf. set_solver.
Qed.

(** X4. A configuration that loads has one of the four known search
    backends, whatever the run configuration and the environment
    hold. *)
Theorem loaded_search_api_is_known (pyd : Pydantic) (env : gmap string string)
    (config : option RunnableConfig) (cfg : Configuration) :
  from_runnable_config pyd env config = Ok cfg →
  search_api cfg ∈ ["perplexity"; "tavily"; "duckduckgo"; "searxng"].
Proof. apply search_api_literal. Qed.

Lemma loaded_search_api_is_known_witness :
  from_runnable_config Examples.plain_pydantic {[ "SEARCH_API" := "tavily" ]}
    None
  = Ok (mkConfiguration 3 "llama3.2" "tavily" true "http://localhost:11434/"
          true false)
  ∧ "tavily" ∈ ["perplexity"; "tavily"; "duckduckgo"; "searxng"].
Proof.
  assert (Hc : from_runnable_config Examples.plain_pydantic
                 {[ "SEARCH_API" := "tavily" ]} None
               = Ok (mkConfiguration 3 "llama3.2" "tavily" true
                       "http://localhost:11434/" true false)).
  { vm_compute. reflexivity. }
  split; [exact Hc|].
  exact (loaded_search_api_is_known _ _ _ _ Hc).
Defined.

(** ** The configuration of gemini_deep_researcher *)

Section GeminiResolution.
Context (pyd : Pydantic) (env : gmap string string).

Lemma gemini_values_lookup (cfg : gmap string pyval) (name : string) :
  name ∈ GeminiConfig.model_fields →
  not_none_values (GeminiConfig.raw_values cfg env) !! name
  = if is_none (GeminiConfig.raw_value cfg env name) then None
    else Some (GeminiConfig.raw_value cfg env name).
Proof.
  intros Hin.
  assert (Hl : GeminiConfig.raw_values cfg env !! name
               = Some (GeminiConfig.raw_value cfg env name)).
  { unfold GeminiConfig.raw_values. apply elem_of_list_to_map.
    - rewrite <- list_fmap_compose. simpl.
      change (compose _ _ <$> GeminiConfig.model_fields)
        with GeminiConfig.model_fields.
      unfold GeminiConfig.model_fields.
      repeat (apply NoDup_cons; split; [set_solver|]). constructor.
    - apply list_elem_of_fmap. eauto. }
  unfold not_none_values.
  destruct (is_none (GeminiConfig.raw_value cfg env name)) eqn:Hn.
  - apply map_lookup_filter_None. right. intros v Hv.
    rewrite Hl in Hv. injection Hv as <-. simpl. by rewrite Hn.
  - by apply map_lookup_filter_Some.
Qed.

Lemma gemini_construct_loops (values : gmap string pyval)
    (cfg : GeminiConfig.Configuration) :
  GeminiConfig.construct pyd values = Ok cfg →
  field values "max_web_research_loops" 3 (as_int pyd)
  = Ok (GeminiConfig.max_web_research_loops cfg).
Proof.
  unfold GeminiConfig.construct, mbind, res_bind, mret, res_ret.
  repeat (match goal with
          | |- context [match field ?v ?n ?d ?c with _ => _ end] =>
              destruct (field v n d c); [|intros [=]]
          end).
  by intros [= <-].
Qed.

End GeminiResolution.

(** X5. The loader of gemini_deep_researcher resolves the other way
    round: the environment variable [MAX_WEB_RESEARCH_LOOPS] wins over
    the entry of the run configuration, which is used only when the
    variable is not set; without either the maximum is 3. *)
Theorem gemini_environment_first (pyd : Pydantic) (env : gmap string string)
    (config : option RunnableConfig) (cfg : GeminiConfig.Configuration) :
  GeminiConfig.from_runnable_config pyd env config = Ok cfg →
  match env !! "MAX_WEB_RESEARCH_LOOPS" with
  | Some s =>
      as_int pyd (VStr s) = Some (GeminiConfig.max_web_research_loops cfg)
  | None =>
      match configurable_of config !! "max_web_research_loops" with
      | Some VNone | None => GeminiConfig.max_web_research_loops cfg = 3
      | Some v => as_int pyd v = Some (GeminiConfig.max_web_research_loops cfg)
      end
  end.
Proof.
  unfold GeminiConfig.from_runnable_config. intros Hc.
  apply gemini_construct_loops in Hc. apply field_ok in Hc.
  rewrite gemini_values_lookup in Hc by set_solver.
  unfold GeminiConfig.raw_value in Hc.
  change (upper "max_web_research_loops") with "MAX_WEB_RESEARCH_LOOPS" in Hc.
  destruct (env !! "MAX_WEB_RESEARCH_LOOPS"); simpl in Hc; [done|].
  destruct (configurable_of config !! "max_web_research_loops") as [v|];
    simpl in Hc; [|done].
  destruct v; simpl in Hc; done.
Qed.

Lemma gemini_environment_first_witness :
  GeminiConfig.from_runnable_config Worlds.lax_pydantic
    {[ "MAX_WEB_RESEARCH_LOOPS" := "5" ]} (Examples.loops_config 7)
  = Ok (GeminiConfig.mkConfiguration 5 "gemini-2.5-pro-preview-03-25"
          "duckduckgo" true true)
  ∧ as_int Worlds.lax_pydantic (VStr "5") = Some 5.
Proof.
  assert (Hc : GeminiConfig.from_runnable_config Worlds.lax_pydantic
                 {[ "MAX_WEB_RESEARCH_LOOPS" := "5" ]}
                 (Examples.loops_config 7)
               = Ok (GeminiConfig.mkConfiguration 5
                       "gemini-2.5-pro-preview-03-25" "duckduckgo" true true)).
  { vm_compute. reflexivity. }
  split; [exact Hc|].
  exact (gemini_environment_first Worlds.lax_pydantic
           {[ "MAX_WEB_RESEARCH_LOOPS" := "5" ]} (Examples.loops_config 7)
           _ Hc).
Defined.

(** ** The query extractor *)

(** X6. In JSON mode, when the answer parses to an object whose field
    [query] has a true truth value, [generate_query] sets the search
    query to that value as it is, string or not. *)
Theorem json_mode_returns_field (w : World) (config : option RunnableConfig)
    (cfg : Configuration) (t : nat) (state : SummaryState) (reply : AIMessage)
    (d : gmap string pyval) (v : pyval) :
  from_runnable_config (pydantic w) (environ w) config = Ok cfg →
  use_tool_calling cfg = false →
  (∀ llm messages, invoke w t llm messages = Ok reply) →
  json_loads w (content reply) = Some (VDict d) →
  d !! "query" = Some v →
  truthy v = true →
  generate_query w t state config = Ok (search_query_update v).
Proof.
  intros Hc Htool Hreply Hd Hv Htrue.
  unfold generate_query. rewrite Hc. clear Hc. simpl.
  unfold generate_search_query_with_structured_output. rewrite Htool.
  unfold json_mode_query. rewrite Hreply. simpl.
  rewrite Hd. simpl. rewrite Hv. simpl. rewrite Htrue. reflexivity.
Qed.

Lemma json_mode_returns_field_witness :
  generate_query Worlds.numeric_answer_world 0 (initial_state (Some "topic"))
    (Examples.loops_config 3)
  = Ok (search_query_update (VNum 42)).
Proof.
  apply (json_mode_returns_field Worlds.numeric_answer_world
           (Examples.loops_config 3) (Examples.loops_configuration 3) 0
           (initial_state (Some "topic")) (mkAIMessage "{query: 42}" [])
           {[ "query" := VNum 42 ]} (VNum 42)).
  - vm_compute. reflexivity.
  - reflexivity.
  - intros llm messages. reflexivity.
  - reflexivity.
  - reflexivity.
  - reflexivity.
Defined.

(** X7. In JSON mode, when the answer parses to a value that is no
    object (a list, a string, a number), [generate_query] raises an
    [AttributeError]: the handler of the extractor catches decoding and
    key errors only. *)
Theorem json_mode_non_object_raises (w : World)
    (config : option RunnableConfig) (cfg : Configuration) (t : nat)
    (state : SummaryState) (reply : AIMessage) (v : pyval) :
  from_runnable_config (pydantic w) (environ w) config = Ok cfg →
  use_tool_calling cfg = false →
  (∀ llm messages, invoke w t llm messages = Ok reply) →
  json_loads w (content reply) = Some v →
  (∀ d, v ≠ VDict d) →
  ∃ e, generate_query w t state config = Raise e
       ∧ exn_kind_of e = AttributeError.
Proof.
  intros Hc Htool Hreply Hv Hno.
  unfold generate_query. rewrite Hc. clear Hc. simpl.
  unfold generate_search_query_with_structured_output. rewrite Htool.
  unfold json_mode_query. rewrite Hreply. simpl. rewrite Hv. simpl.
  destruct v; try (eexists; split; reflexivity).
  by destruct (Hno d).
Qed.

Lemma json_mode_non_object_raises_witness :
  ∃ e, generate_query Worlds.list_answer_world 0
         (initial_state (Some "topic")) (Examples.loops_config 3) = Raise e
       ∧ exn_kind_of e = AttributeError.
Proof.
  apply (json_mode_non_object_raises Worlds.list_answer_world
           (Examples.loops_config 3) (Examples.loops_configuration 3) 0
           (initial_state (Some "topic")) (mkAIMessage "[]" []) (VList [])).
  - vm_compute. reflexivity.
  - reflexivity.
  - intros llm messages. reflexivity.
  - reflexivity.
  - intros d. discriminate.
Defined.

(** X8. In tool-calling mode only the first tool call counts.  Without
    a tool call, or when the first call is a dictionary without the key
    [args], the fallback is used; when [args] is a dictionary the search
    query is its entry [query], or [None] when there is none; a first
    call that is no dictionary raises a [TypeError], and arguments that
    are no dictionary raise an [AttributeError]. *)
Theorem tool_mode_extraction (w : World) (config : option RunnableConfig)
    (cfg : Configuration) (t : nat) (state : SummaryState) (reply : AIMessage) :
  from_runnable_config (pydantic w) (environ w) config = Ok cfg →
  use_tool_calling cfg = true →
  (∀ llm messages, invoke w t llm messages = Ok reply) →
  let fallback := search_query_update (VStr (tell_me_more state)) in
  match tool_calls reply with
  | [] => generate_query w t state config = Ok fallback
  | VDict call :: _ =>
      match call !! "args" with
      | None => generate_query w t state config = Ok fallback
      | Some (VDict args) =>
          generate_query w t state config
          = Ok (search_query_update (default VNone (args !! "query")))
      | Some _ =>
          ∃ e, generate_query w t state config = Raise e
               ∧ exn_kind_of e = AttributeError
      end
  | _ :: _ =>
      ∃ e, generate_query w t state config = Raise e
           ∧ exn_kind_of e = TypeError
  end.
Proof.
  intros Hc Htool Hreply fallback.
  unfold generate_query. rewrite Hc. clear Hc. simpl.
  unfold generate_search_query_with_structured_output. rewrite Htool.
  unfold tool_calling_query. rewrite Hreply. simpl.
  destruct (tool_calls reply) as [|c cs]; [reflexivity|]. simpl.
  destruct c; try (eexists; split; reflexivity).
  simpl. destruct (d !! "args") as [a|]; [|reflexivity]. simpl.
  destruct a; first [reflexivity | eexists; split; reflexivity].
Qed.

Lemma tool_mode_extraction_witness :
  generate_query Examples.tool_world 0 (initial_state (Some "topic"))
    Examples.tool_config
  = Ok (search_query_update (default VNone
          (({[ "rationale" := VStr "because" ]} : gmap string pyval)
             !! "query"))).
Proof.
  apply (tool_mode_extraction Examples.tool_world Examples.tool_config
           (mkConfiguration 3 "llama3.2" "duckduckgo" true
              "http://localhost:11434/" true true) 0
           (initial_state (Some "topic"))
           (mkAIMessage "" [Examples.query_less_call])).
  - vm_compute. reflexivity.
  - reflexivity.
  - intros llm messages. reflexivity.
Defined.

(** X9. The extractor looks at three fields of the configuration only:
    the base address, the model name and the mode.  In particular the
    text cleaned by [strip_thinking_tokens] is never used: switching the
    flag changes nothing. *)
Theorem extractor_ignores_other_fields (w : World) (t : nat)
    (cfg1 cfg2 : Configuration) (messages : list Message)
    (tool_class fallback f1 f2 : string) :
  ollama_base_url cfg1 = ollama_base_url cfg2 →
  local_llm cfg1 = local_llm cfg2 →
  use_tool_calling cfg1 = use_tool_calling cfg2 →
  generate_search_query_with_structured_output w t cfg1 messages tool_class
    fallback f1 f2
  = generate_search_query_with_structured_output w t cfg2 messages tool_class
      fallback f1 f2.
Proof.
  intros Hurl Hllm Htool.
  unfold generate_search_query_with_structured_output, tool_calling_query,
    json_mode_query, get_llm.
  rewrite Hurl, Hllm, Htool.
  destruct (use_tool_calling cfg2); [reflexivity|].
  destruct (invoke w t _ _) as [reply|e]; [|reflexivity]. simpl.
  destruct (json_loads w (content reply)) as [v|]; [|reflexivity]. simpl.
  destruct (get v f2) as [q|e]; simpl; [reflexivity|].
  destruct (bool_decide _); reflexivity.
Qed.

Lemma extractor_ignores_other_fields_witness :
  generate_search_query_with_structured_output Examples.quiet_world 0
    (mkConfiguration 3 "llama3.2" "duckduckgo" true "http://localhost:11434/"
       true false) [] "Query" "fallback" "query" "query"
  = generate_search_query_with_structured_output Examples.quiet_world 0
      (mkConfiguration 9 "llama3.2" "tavily" false "http://localhost:11434/"
         false false) [] "Query" "fallback" "query" "query".
Proof.
  apply extractor_ignores_other_fields; reflexivity.
Defined.

(** ** web_research and summarize_sources *)

(** X10. With a configuration that loads and a search service that
    answers, [web_research] records the listing and the formatted text
    of what was found: the branch for an unsupported backend cannot be
    taken, and the failure marker is not written. *)
Theorem web_research_records_results (w : World)
    (config : option RunnableConfig) (cfg : Configuration) (t : nat)
    (state : SummaryState) (found : pyval) (text listing : string) :
  from_runnable_config (pydantic w) (environ w) config = Ok cfg →
  (∀ s, get_config_value w s = s) →
  (∀ call, search w t call = Ok found) →
  deduplicate_and_format_sources w found 1000 (fetch_full_page cfg) = Ok text →
  format_sources w found = Ok listing →
  web_research w t state config
  = Ok (web_research_update listing (research_loop_count state + 1) text).
Proof.
  intros Hc Hid Hsearch Htext Hlist.
  pose proof (search_api_literal _ _ _ _ Hc) as Hapi.
  unfold web_research. rewrite Hc. clear Hc. simpl. rewrite Hid.
  unfold search_the_web. rewrite !Hsearch. simpl.
  unfold MAX_TOKENS_PER_SOURCE. rewrite Htext. simpl.
  unfold search_api_literals in Hapi.
  repeat (apply elem_of_cons in Hapi as [->|Hapi];
          [simpl; rewrite Hlist; reflexivity|]).
  by apply elem_of_nil in Hapi.
Qed.

Lemma web_research_records_results_witness :
  web_research Examples.quiet_world 1 (initial_state (Some "topic"))
    (Examples.loops_config 3)
  = Ok (web_research_update "http://a.example" (0 + 1) "formatted results").
Proof.
  apply (web_research_records_results Examples.quiet_world
           (Examples.loops_config 3) (Examples.loops_configuration 3) 1
           (initial_state (Some "topic")) (VList [])).
  - vm_compute. reflexivity.
  - intros s. reflexivity.
  - intros call. reflexivity.
  - reflexivity.
  - reflexivity.
Defined.

(** X11. When the model answers, [summarize_sources] replaces the
    running summary by the answer (cleaned if the configuration says
    so), whatever the earlier summary was: an empty answer erases it. *)
Theorem summarize_replaces_summary (w : World) (config : option RunnableConfig)
    (cfg : Configuration) (t : nat) (state : SummaryState) (reply : AIMessage) :
  from_runnable_config (pydantic w) (environ w) config = Ok cfg →
  web_research_results state ≠ [] →
  (∀ llm messages, invoke w t llm messages = Ok reply) →
  summarize_sources w t state config
  = Ok (running_summary_update
          (if strip_thinking_tokens cfg
           then strip_thinking_tokens_of w (content reply)
           else content reply)).
Proof.
  intros Hc Hne Hreply. unfold summarize_sources, index_last.
  destruct (last (web_research_results state)) as [r|] eqn:Hlast.
  2:{ apply last_None in Hlast. contradiction. }
  simpl. rewrite Hc. clear Hc. simpl. rewrite Hreply. reflexivity.
Qed.

Lemma summarize_replaces_summary_witness :
  summarize_sources Worlds.silent_model_world 4 Examples.with_summary
    (Examples.loops_config 3)
  = Ok (running_summary_update "").
Proof.
  apply (summarize_replaces_summary Worlds.silent_model_world
           (Examples.loops_config 3) (Examples.loops_configuration 3) 4
           Examples.with_summary (mkAIMessage "" [])).
  - vm_compute. reflexivity.
  - discriminate.
  - intros llm messages. reflexivity.
Defined.

(** X12. In JSON mode a query set by [generate_query] or by
    [reflect_on_summary] always has a true truth value: an answer
    without a usable field is replaced by the fallback, which is never
    empty.  So [None] or an empty query can reach the search in
    tool-calling mode only. *)
Theorem json_mode_query_is_truthy (w : World) (config : option RunnableConfig)
    (cfg : Configuration) (t : nat) (state : SummaryState) (u : Update) :
  from_runnable_config (pydantic w) (environ w) config = Ok cfg →
  use_tool_calling cfg = false →
  generate_query w t state config = Ok u
  ∨ reflect_on_summary w t state config = Ok u →
  ∃ q, u = search_query_update q ∧ truthy q = true.
Proof.
  intros Hc Htool Hu.
  unfold generate_query, reflect_on_summary in Hu. rewrite Hc in Hu.
  clear Hc. simpl in Hu.
  unfold generate_search_query_with_structured_output in Hu.
  rewrite Htool in Hu. unfold json_mode_query in Hu.
  assert (Hfb : truthy (VStr (tell_me_more state)) = true) by reflexivity.
  destruct Hu as [Hu|Hu];
    (destruct (invoke w t _ _) as [reply|e]; [|discriminate Hu]; simpl in Hu;
     destruct (json_loads w (content reply)) as [v|]; simpl in Hu;
       [|injection Hu as <-; eauto];
     destruct v; simpl in Hu; try discriminate Hu;
     match type of Hu with
     | context [truthy ?q] =>
         destruct (truthy q) eqn:Hq; simpl in Hu; injection Hu as <-; eauto
     end).
Qed.

Lemma json_mode_query_is_truthy_witness :
  ∃ q, search_query_update (VNum 42) = search_query_update q
       ∧ truthy q = true.
Proof.
  apply (json_mode_query_is_truthy Worlds.numeric_answer_world
           (Examples.loops_config 3) (Examples.loops_configuration 3) 0
           (initial_state (Some "topic")) (search_query_update (VNum 42))).
  - vm_compute. reflexivity.
  - reflexivity.
  - left. vm_compute. reflexivity.
Defined.

(** ** Complete runs *)

Section FinishedRuns.
Context (w : World) (config : option RunnableConfig).

Lemma successor_none (n : node) (state : SummaryState) :
  successor w n state config = Ok None → n = finalize_summary_node.
Proof.
  destruct n; unfold successor.
  - intros [=].
  - intros [=].
  - intros [=].
  - unfold fmap, res_fmap. destruct (route_research w state config); intros [=].
  - reflexivity.
Qed.

(** An invariant of the nodes holds for the state that
    [finalize_summary] receives at the end of a run. *)
Lemma execute_finished_inv (I : node → list node → SummaryState → Prop) :
  (∀ n tr st u n',
     I n tr st →
     run_node w n (length tr) st config = Ok u →
     successor w n (apply_update st u) config = Ok (Some n') →
     I n' (tr ++ [n]) (apply_update st u)) →
  ∀ fuel n tr st tr' st' out,
    I n tr st →
    execute w fuel n tr st config = Finished tr' st' out →
    ∃ tr0 pre,
      tr' = tr0 ++ [finalize_summary_node]
      ∧ I finalize_summary_node tr0 pre
      ∧ out = Finalize.finalize_summary pre
      ∧ st' = apply_update pre
                (running_summary_update (out_running_summary out)).
Proof.
  intros Hstep fuel. induction fuel as [|fuel IH];
    intros n tr st tr' st' out HI; [intros [=]|].
  cbn [execute].
  destruct (run_node w n (length tr) st config) as [u|e] eqn:Hu; [|intros [=]].
  destruct (successor w n (apply_update st u) config) as [[n'|]|e] eqn:Hs.
  - apply IH. by eapply Hstep.
  - apply successor_none in Hs as ->. cbn [run_node] in Hu.
    injection Hu as <-. intros [= <- <- <-].
    exists tr, st. done.
  - intros [=].
Qed.

End FinishedRuns.

Section TraceShape.
Context (w : World) (config : option RunnableConfig) (cfg : Configuration).
Hypothesis Hcfg :
  from_runnable_config (pydantic w) (environ w) config = Ok cfg.

Lemma iterations_snoc (k : nat) :
  mjoin (replicate k Shape.iteration) ++ Shape.iteration
  = mjoin (replicate (S k) Shape.iteration).
Proof.
  induction k as [|k IH]; [done|].
  change (mjoin (replicate (S k) Shape.iteration))
    with (Shape.iteration ++ mjoin (replicate k Shape.iteration)).
  rewrite <- app_assoc, IH. reflexivity.
Qed.

Lemma iterations_steps (k : nat) :
  web_research_steps (mjoin (replicate k Shape.iteration)) = k.
Proof.
  induction k as [|k IH]; [done|].
  change (mjoin (replicate (S k) Shape.iteration))
    with (Shape.iteration ++ mjoin (replicate k Shape.iteration)).
  unfold web_research_steps in *. rewrite filter_app, length_app, IH.
  reflexivity.
Qed.

Lemma before_step (n n' : node) (tr : list node) (st : SummaryState)
    (u : Update) :
  progress tr st ∧ Shape.before (max_web_research_loops cfg) n tr →
  run_node w n (length tr) st config = Ok u →
  successor w n (apply_update st u) config = Ok (Some n') →
  progress (tr ++ [n]) (apply_update st u)
  ∧ Shape.before (max_web_research_loops cfg) n' (tr ++ [n]).
Proof.
  intros [Hp Hb] Hu Hs.
  pose proof (run_node_progress w config _ _ _ _ _ Hp Hu) as Hp'.
  split; [exact Hp'|].
  destruct Hp' as (Hcount & _ & _).
  set (st' := apply_update st u) in *. clearbody st'. clear Hu Hp.
  destruct n; unfold successor in Hs.
  - injection Hs as <-. simpl in Hb. subst tr.
    exists 0%nat. split; [lia|reflexivity].
  - injection Hs as <-. destruct Hb as (k & Hk & ->).
    exists k. split; [lia|]. by rewrite <- app_comm_cons.
  - injection Hs as <-. destruct Hb as (k & Hk & ->).
    exists k. split; [lia|]. rewrite <- !app_comm_cons, <- app_assoc.
    reflexivity.
  - rewrite (route_research_eq w config cfg Hcfg) in Hs.
    destruct Hb as (k & Hk & ->).
    assert (Htr : (generate_query_node
                     :: mjoin (replicate k Shape.iteration)
                     ++ [web_research_node; summarize_sources_node])
                  ++ [reflect_on_summary_node]
                  = generate_query_node
                      :: mjoin (replicate (S k) Shape.iteration)).
    { rewrite <- app_comm_cons, <- app_assoc. f_equal.
      apply iterations_snoc. }
    rewrite Htr in Hcount |- *.
    assert (Hsteps : web_research_steps
                       (generate_query_node
                          :: mjoin (replicate (S k) Shape.iteration)) = S k).
    { unfold web_research_steps. rewrite filter_cons_False by discriminate.
      apply iterations_steps. }
    rewrite Hsteps in Hcount. rewrite Hcount in Hs. clear Hcfg.
    destruct (Z.leb_spec (Z.of_nat (S k)) (max_web_research_loops cfg));
      simpl in Hs; injection Hs as <-.
    + exists (S k). split; [lia|reflexivity].
    + unfold Shape.before.
      replace (Z.to_nat (max_web_research_loops cfg)) with k by lia.
      reflexivity.
  - discriminate.
Qed.

Lemma finished_before (fuel : nat) (topic : option string)
    (trace : list node) (st : SummaryState) (out : SummaryStateOutput) :
  run w fuel topic config = Finished trace st out →
  ∃ pre,
    trace = Shape.complete_trace (S (Z.to_nat (max_web_research_loops cfg)))
    ∧ progress (removelast trace) pre
    ∧ out = Finalize.finalize_summary pre.
Proof.
  unfold run. intros Hrun.
  apply (execute_finished_inv w config
           (λ n tr st,
              progress tr st
              ∧ Shape.before (max_web_research_loops cfg) n tr))
    in Hrun as (tr0 & pre & -> & [Hp Hb] & Hout & _).
  - exists pre. simpl in Hb. subst tr0. split; [reflexivity|].
    split; [|exact Hout].
    rewrite removelast_last. exact Hp.
  - intros n tr st0 u n'. apply before_step.
  - split; [apply progress_initial|reflexivity].
Qed.

End TraceShape.

(** X13. The control flow of a complete run: [generate_query] once,
    then [web_research], [summarize_sources], [reflect_on_summary] in
    this order as many times as there are searches (the maximum plus
    one, and one when the maximum is negative), then
    [finalize_summary] once. *)
Theorem finished_run_trace (w : World) (config : option RunnableConfig)
    (cfg : Configuration) (fuel : nat) (topic : option string)
    (trace : list node) (st : SummaryState) (out : SummaryStateOutput) :
  from_runnable_config (pydantic w) (environ w) config = Ok cfg →
  run w fuel topic config = Finished trace st out →
  trace = generate_query_node
            :: mjoin (replicate (S (Z.to_nat (max_web_research_loops cfg)))
                        [web_research_node; summarize_sources_node;
                         reflect_on_summary_node])
            ++ [finalize_summary_node].
Proof.
  intros Hc Hrun.
  destruct (finished_before w config cfg Hc _ _ _ _ _ Hrun) as (pre & Ht & _).
  exact Ht.
Qed.

Lemma finished_run_trace_witness :
  ∃ st out,
    run Examples.quiet_world 20 (Some "topic") (Examples.loops_config 1)
    = Finished
        (generate_query_node
           :: mjoin (replicate (S (Z.to_nat 1))
                       [web_research_node; summarize_sources_node;
                        reflect_on_summary_node])
           ++ [finalize_summary_node]) st out.
Proof.
  assert (Hrun : ∃ trace st out,
             run Examples.quiet_world 20 (Some "topic")
               (Examples.loops_config 1) = Finished trace st out).
  { eexists _, _, _. vm_compute. reflexivity. }
  destruct Hrun as (trace & st & out & Hrun).
  exists st, out. rewrite Hrun. f_equal.
  apply (finished_run_trace Examples.quiet_world (Examples.loops_config 1)
           (Examples.loops_configuration 1) 20 (Some "topic") trace st out).
  - vm_compute. reflexivity.
  - exact Hrun.
Defined.

(** ** More on finalize_summary *)

Section StripFacts.

Lemma lstrip_starts_clean (s : string) : Clean.starts_clean (lstrip s).
Proof.
  induction s as [|c r IH]; simpl; [done|].
  destruct (isspace c) eqn:Hc; [exact IH|]. simpl. exact Hc.
Qed.

Lemma lstrip_clean_id (s : string) : Clean.starts_clean s → lstrip s = s.
Proof. destruct s as [|c r]; simpl; [done|]. by intros ->. Qed.

Lemma rstrip_starts_clean (s : string) :
  Clean.starts_clean s → Clean.starts_clean (rstrip s).
Proof.
  destruct s as [|c r]; simpl; [done|]. intros Hc.
  destruct (rstrip r); simpl; [by rewrite Hc|done].
Qed.

Lemma rstrip_idem (s : string) : rstrip (rstrip s) = rstrip s.
Proof.
  induction s as [|c r IH]; simpl; [done|].
  destruct (rstrip r) as [|d r'] eqn:Hr.
  - destruct (isspace c) eqn:Hc; simpl; [done|]. by rewrite Hc.
  - simpl. simpl in IH. by rewrite IH.
Qed.

Lemma strip_idem (s : string) : strip (strip s) = strip s.
Proof.
  unfold strip.
  rewrite (lstrip_clean_id (rstrip (lstrip s))).
  - apply rstrip_idem.
  - apply rstrip_starts_clean, lstrip_starts_clean.
Qed.

Lemma join_cons_char (sep : string) (c : ascii) (h : string)
    (t : list string) :
  join sep (String c h :: t) = String c (join sep (h :: t)).
Proof. by destruct t. Qed.

Lemma join_split_nl (s : string) : join NL (split_nl s) = s.
Proof.
  induction s as [|c r IH]; simpl; [done|].
  destruct (is_nl c) eqn:Hc.
  - apply bool_decide_eq_true in Hc as ->.
    destruct (split_nl r) as [|h t] eqn:Hr.
    { by destruct (split_nl_nonempty r). }
    change (join NL (EmptyString :: h :: t))
      with (String nl_char (join NL (h :: t))).
    by rewrite IH.
  - destruct (split_nl r) as [|h t] eqn:Hr.
    { by destruct (split_nl_nonempty r). }
    rewrite join_cons_char. by rewrite IH.
Qed.

End StripFacts.

Section MoreFirstSeen.
Import Finalize.

Lemma first_seen_app (l1 l2 : list string) :
  first_seen (l1 ++ l2)
  = first_seen l1 ++ filter (λ y, y ∉ l1) (first_seen l2).
Proof.
  induction l1 as [|x l1 IH]; simpl.
  - symmetry. apply filter_Forall_id. apply Forall_forall.
    intros y _. apply not_elem_of_nil.
  - f_equal. rewrite IH, filter_app. f_equal.
    rewrite list_filter_filter. apply list_filter_iff.
    intros y. rewrite not_elem_of_cons. tauto.
Qed.

Lemma filter_none (P : string → Prop) `{!∀ x, Decision (P x)}
    (l : list string) :
  (∀ y, y ∈ l → ¬ P y) → filter P l = [].
Proof.
  induction l as [|y l IH]; intros Hno; [done|].
  rewrite filter_cons_False.
  - apply IH. intros z Hz. apply Hno. by right.
  - apply Hno. by left.
Qed.

Lemma first_seen_app_seen (l1 l2 : list string) :
  (∀ y, y ∈ l2 → y ∈ l1) → first_seen (l1 ++ l2) = first_seen l1.
Proof.
  intros Hsub. rewrite first_seen_app, filter_none.
  - apply app_nil_r.
  - intros y Hy Hn. apply Hn, Hsub. by apply first_seen_elem_of.
Qed.

Lemma unique_sources_app_seen (g g' : list string) :
  (∀ s, s ∈ g' → s ∈ g) →
  unique_sources_of (g ++ g') = unique_sources_of g.
Proof.
  intros Hsub. rewrite !unique_sources_of_spec. unfold dedup_spec.
  rewrite fmap_app, join_app, filter_app. apply first_seen_app_seen.
  intros y [Hnb Hy]%list_elem_of_filter. apply list_elem_of_filter.
  split; [done|]. apply list_elem_of_join in Hy as (ls & Hy & Hls).
  apply list_elem_of_fmap in Hls as (s & -> & Hs).
  apply list_elem_of_join. exists (split_nl s). split; [done|].
  apply list_elem_of_fmap. exists s. split; [done|]. by apply Hsub.
Qed.

Lemma unique_sources_elem_of (g : list string) (line : string) :
  line ∈ unique_sources_of g ↔
    non_blank line ∧ ∃ source, source ∈ g ∧ line ∈ split_nl source.
Proof. rewrite unique_sources_of_spec. apply dedup_spec_elem_of. Qed.

Lemma strip_blank_no_http (line : string) :
  ¬ non_blank line → startswith (strip line) "http" = false.
Proof.
  unfold non_blank. destruct (strip line); [done|]. simpl. by intros [].
Qed.

Lemma source_urls_nil (g : list string) :
  source_urls_of (unique_sources_of g) = [] ↔
    ∀ source line,
      source ∈ g → line ∈ split_nl source →
      startswith (strip line) "http" = false.
Proof.
  rewrite source_urls_of_filter. split.
  - intros Hnil source line Hs Hl.
    destruct (decide (non_blank line)) as [Hnb|Hnb].
    + apply fmap_nil_inv in Hnil.
      destruct (startswith (strip line) "http") eqn:Hh; [|done].
      assert (Hin : line ∈ filter (λ l, startswith (strip l) "http" = true)
                             (unique_sources_of g)).
      { apply list_elem_of_filter. split; [done|].
        apply unique_sources_elem_of. eauto. }
      rewrite Hnil in Hin. by apply elem_of_nil in Hin.
    + by apply strip_blank_no_http.
  - intros Hno. rewrite filter_none; [done|].
    intros line [_ (source & Hs & Hl)]%unique_sources_elem_of Hh.
    rewrite (Hno source line Hs Hl) in Hh. discriminate.
Qed.

End MoreFirstSeen.

(** X14. Every address in [sources] starts with [http] and has no
    white space around it. *)
Theorem sources_are_clean_addresses (state : SummaryState) (url : string) :
  url ∈ out_sources (Finalize.finalize_summary state) →
  startswith url "http" = true ∧ strip url = url.
Proof.
  simpl. rewrite source_urls_of_filter.
  intros (line & -> & [Hh _]%list_elem_of_filter)%list_elem_of_fmap.
  split; [exact Hh|apply strip_idem].
Qed.

Lemma sources_are_clean_addresses_witness :
  "http://a.example"
    ∈ out_sources (Finalize.finalize_summary Examples.indented_duplicate)
  ∧ startswith "http://a.example" "http" = true
  ∧ strip "http://a.example" = "http://a.example".
Proof.
  assert (H : "http://a.example"
                ∈ out_sources
                    (Finalize.finalize_summary Examples.indented_duplicate)).
  { vm_compute. by left. }
  split; [exact H|].
  exact (sources_are_clean_addresses Examples.indented_duplicate _ H).
Defined.

(** X15. The list of addresses is empty exactly when no line of any
    gathered entry starts with [http] once stripped; the run is then
    not a success and carries an error message. *)
Theorem no_address_no_success (state : SummaryState) :
  let out := Finalize.finalize_summary state in
  (out_sources out = [] ↔
     ∀ source line,
       source ∈ sources_gathered state → line ∈ split_nl source →
       startswith (strip line) "http" = false)
  ∧ (out_sources out = [] →
     out_success out = false ∧ out_error_message out ≠ None).
Proof.
  simpl. split; [apply source_urls_nil|].
  intros ->. unfold Finalize.has_sources_of, Finalize.error_message_of. simpl.
  rewrite andb_false_r. split; [done|].
  by destruct (Finalize.has_summary_of (running_summary state)).
Qed.

Lemma no_address_no_success_witness :
  out_success
    (Finalize.finalize_summary
       (mkState (Some "topic") VNone [] ["Error fetching sources"] 1 None))
  = false.
Proof.
  destruct (no_address_no_success
              (mkState (Some "topic") VNone [] ["Error fetching sources"] 1
                 None)) as [_ H].
  apply H. vm_compute. reflexivity.
Defined.

(** X16. Gathering again an entry that was gathered before changes
    nothing in the outcome. *)
Theorem regathered_entries_change_nothing (s1 s2 : SummaryState)
    (again : list string) :
  running_summary s2 = running_summary s1 →
  sources_gathered s2 = sources_gathered s1 ++ again →
  (∀ entry, entry ∈ again → entry ∈ sources_gathered s1) →
  Finalize.finalize_summary s2 = Finalize.finalize_summary s1.
Proof.
  intros Hsum Hg Hsub. unfold Finalize.finalize_summary.
  rewrite Hsum, Hg, (unique_sources_app_seen _ _ Hsub). reflexivity.
Qed.

Lemma regathered_entries_change_nothing_witness :
  Finalize.finalize_summary
    (mkState (Some "topic") VNone [] ["http://a.example"; "http://a.example"]
       2 None)
  = Finalize.finalize_summary
      (mkState (Some "topic") VNone [] ["http://a.example"] 1 None).
Proof.
  apply (regathered_entries_change_nothing _ _ ["http://a.example"]).
  - reflexivity.
  - reflexivity.
  - intros entry Hin. exact Hin.
Defined.

(** X17. When a single entry was gathered whose lines are not blank and
    pairwise distinct, the sources section of the report is that entry,
    character for character. *)
Theorem single_entry_is_reproduced (state : SummaryState) (entry : string) :
  sources_gathered state = [entry] →
  Forall Finalize.non_blank (split_nl entry) →
  NoDup (split_nl entry) →
  out_running_summary (Finalize.finalize_summary state)
  = "## Summary" +:+ NL +:+ fmt_opt (running_summary state) +:+ NL +:+ NL
      +:+ " ### Sources:" +:+ NL +:+ entry.
Proof.
  intros Hg Hnb Hnd. simpl. unfold Finalize.formatted_summary_of.
  rewrite Hg, unique_sources_of_spec. unfold Finalize.dedup_spec.
  simpl. rewrite app_nil_r.
  rewrite (filter_Forall_id _ _ Hnb), (first_seen_id _ Hnd), join_split_nl.
  reflexivity.
Qed.

Lemma single_entry_is_reproduced_witness :
  out_running_summary (Finalize.finalize_summary Worlds.one_entry)
  = "## Summary" +:+ NL +:+ "None" +:+ NL +:+ NL +:+ " ### Sources:" +:+ NL
      +:+ ("http://a.example" +:+ NL +:+ "http://b.example").
Proof.
  apply (single_entry_is_reproduced Worlds.one_entry
           ("http://a.example" +:+ NL +:+ "http://b.example")).
  - reflexivity.
  - repeat constructor.
  - assert (Hs : split_nl ("http://a.example" +:+ NL +:+ "http://b.example")
                 = ["http://a.example"; "http://b.example"]).
    { vm_compute. reflexivity. }
    rewrite Hs. apply NoDup_cons. split; [|apply NoDup_singleton].
    intros Hin. apply list_elem_of_singleton in Hin. discriminate.
Defined.

(** ** What a complete run hands to the caller *)

Section Verdicts.

Lemma no_sources_verdict (state : SummaryState) :
  out_sources (Finalize.finalize_summary state) = [] →
  out_success (Finalize.finalize_summary state) = false
  ∧ out_error_message (Finalize.finalize_summary state) ≠ None.
Proof.
  simpl. intros ->.
  unfold Finalize.has_sources_of, Finalize.error_message_of. simpl.
  rewrite andb_false_r. split; [done|].
  by destruct (Finalize.has_summary_of (running_summary state)).
Qed.

Lemma verdict_cases (state : SummaryState) :
  let out := Finalize.finalize_summary state in
  (out_success out = true
   ∧ out_error_message out = None ∧ out_sources out ≠ [])
  ∨ (out_success out = false ∧ out_error_message out ≠ None).
Proof.
  simpl. unfold Finalize.has_sources_of, Finalize.error_message_of.
  destruct (Finalize.has_summary_of (running_summary state));
    destruct (Finalize.source_urls_of _); simpl; auto.
Qed.

End Verdicts.

Section SummaryIsSet.
Context (w : World) (config : option RunnableConfig).

Lemma summary_set_step (n n' : node) (tr : list node) (st : SummaryState)
    (u : Update) :
  (n = reflect_on_summary_node ∨ n = finalize_summary_node →
   is_Some (running_summary st)) →
  run_node w n (length tr) st config = Ok u →
  successor w n (apply_update st u) config = Ok (Some n') →
  (n' = reflect_on_summary_node ∨ n' = finalize_summary_node →
   is_Some (running_summary (apply_update st u))).
Proof.
  intros HI Hu Hs Hn'. destruct n; cbn [run_node] in Hu; unfold successor in Hs.
  - injection Hs as <-. by destruct Hn'.
  - injection Hs as <-. by destruct Hn'.
  - destruct (summarize_sources_ok w config (length tr) st) as [s Hsum].
    rewrite Hsum in Hu. injection Hu as <-. simpl. eauto.
  - apply reflect_on_summary_shape in Hu as [q ->]. simpl.
    apply HI. by left.
  - discriminate.
Qed.

End SummaryIsSet.

Lemma finished_pre_summary (w : World) (config : option RunnableConfig)
    (fuel : nat) (topic : option string) (trace : list node)
    (st : SummaryState) (out : SummaryStateOutput) :
  run w fuel topic config = Finished trace st out →
  ∃ pre s,
    out = Finalize.finalize_summary pre
    ∧ running_summary pre = Some s
    ∧ running_summary st = Some (out_running_summary out).
Proof.
  unfold run. intros Hrun.
  apply (execute_finished_inv w config
           (λ n tr st,
              n = reflect_on_summary_node ∨ n = finalize_summary_node →
              is_Some (running_summary st)))
    in Hrun as (tr0 & pre & _ & HI & Hout & Hst).
  - destruct HI as [s Hs]; [by right|].
    exists pre, s. split; [exact Hout|]. split; [exact Hs|].
    rewrite Hst. reflexivity.
  - intros n tr st0 u n'. apply summary_set_step.
  - intros [H|H]; discriminate.
Qed.

(** X18. A run that reaches its end has a running summary when
    [finalize_summary] starts, be it the model's text or the failure
    placeholder, so the report never prints [None]; and the state it
    leaves holds the formatted report as its running summary. *)
Theorem finished_run_has_summary (w : World) (config : option RunnableConfig)
    (fuel : nat) (topic : option string) (trace : list node)
    (st : SummaryState) (out : SummaryStateOutput) :
  run w fuel topic config = Finished trace st out →
  ∃ pre s,
    out = Finalize.finalize_summary pre
    ∧ running_summary pre = Some s
    ∧ out_running_summary out
      = "## Summary" +:+ NL +:+ s +:+ NL +:+ NL +:+ " ### Sources:" +:+ NL
          +:+ join NL (Finalize.unique_sources_of (sources_gathered pre))
    ∧ running_summary st = Some (out_running_summary out).
Proof.
  intros Hrun.
  destruct (finished_pre_summary _ _ _ _ _ _ _ Hrun) as (pre & s & Ho & Hs & Hst).
  exists pre, s. split; [exact Ho|]. split; [exact Hs|]. split; [|exact Hst].
  rewrite Ho. simpl. unfold Finalize.formatted_summary_of. rewrite Hs.
  reflexivity.
Qed.

Lemma finished_run_has_summary_witness :
  ∃ trace st out pre s,
    run Examples.quiet_world 20 (Some "topic") (Examples.loops_config 0)
    = Finished trace st out
    ∧ out = Finalize.finalize_summary pre
    ∧ running_summary pre = Some s.
Proof.
  assert (Hrun : ∃ trace st out,
             run Examples.quiet_world 20 (Some "topic")
               (Examples.loops_config 0) = Finished trace st out).
  { eexists _, _, _. vm_compute. reflexivity. }
  destruct Hrun as (trace & st & out & Hrun).
  destruct (finished_run_has_summary _ _ _ _ _ _ _ Hrun)
    as (pre & s & Hout & Hs & _ & _).
  exists trace, st, out, pre, s.
  split; [exact Hrun|]. split; [exact Hout|exact Hs].
Defined.

Section SearchDown.
Context (w : World) (config : option RunnableConfig) (cfg : Configuration).
Hypothesis Hcfg :
  from_runnable_config (pydantic w) (environ w) config = Ok cfg.
Hypothesis Hdown : ∀ t call, ∃ e, search w t call = Raise e.

Lemma search_the_web_raises (t : nat) (state : SummaryState) (api : string) :
  ∃ e, search_the_web w t state cfg api = Raise e.
Proof.
  unfold search_the_web.
  repeat (case_bool_decide;
          [match goal with
           | |- context [search w t ?call] =>
               destruct (Hdown t call) as [e He]; rewrite He; by exists e
           end|]).
  eexists. reflexivity.
Qed.

Lemma web_research_marks_failure (t : nat) (state : SummaryState) :
  ∃ text,
    web_research w t state config
    = Ok (web_research_update "Error fetching sources"
            (research_loop_count state + 1) text).
Proof.
  unfold web_research. rewrite Hcfg. simpl.
  destruct (search_the_web_raises t state
              (get_config_value w (search_api cfg))) as [e He].
  rewrite He. simpl. eauto.
Qed.

Lemma markers_step (n n' : node) (tr : list node) (st : SummaryState)
    (u : Update) :
  Forall (λ s, s = "Error fetching sources") (sources_gathered st) →
  run_node w n (length tr) st config = Ok u →
  Forall (λ s, s = "Error fetching sources")
    (sources_gathered (apply_update st u)).
Proof.
  intros HI Hu. pose proof (run_node_shape w config _ _ _ _ Hu) as Hshape.
  case_bool_decide as Hn.
  - subst n. cbn [run_node] in Hu.
    destruct (web_research_marks_failure (length tr) st) as [text Hw].
    rewrite Hw in Hu. injection Hu as <-. simpl.
    apply Forall_app. split; [exact HI|]. by constructor.
  - destruct Hshape as (Hs & _ & _). simpl. rewrite Hs, app_nil_r. exact HI.
Qed.

End SearchDown.

(** X19. When every search raises, a run with a configuration that
    loads still goes through all its iterations: the loop count reaches
    the maximum plus one (one for a negative maximum), the outcome has
    no sources, is not a success and carries an error message. *)
Theorem run_with_search_down (w : World) (config : option RunnableConfig)
    (cfg : Configuration) (fuel : nat) (topic : option string)
    (trace : list node) (st : SummaryState) (out : SummaryStateOutput) :
  from_runnable_config (pydantic w) (environ w) config = Ok cfg →
  (∀ t call, ∃ e, search w t call = Raise e) →
  run w fuel topic config = Finished trace st out →
  research_loop_count st = Z.max 1 (max_web_research_loops cfg + 1)
  ∧ out_sources out = []
  ∧ out_success out = false
  ∧ out_error_message out ≠ None.
Proof.
  intros Hc Hdown Hrun. unfold run in Hrun.
  apply (execute_finished_inv w config
           (λ n tr st,
              (progress tr st
               ∧ Shape.before (max_web_research_loops cfg) n tr)
              ∧ Forall (λ s, s = "Error fetching sources")
                  (sources_gathered st)))
    in Hrun as (tr0 & pre & _ & [[Hp Hb] Hm] & Hout & Hst).
  - assert (Hnil : out_sources out = []).
    { rewrite Hout. simpl. apply source_urls_nil.
      intros source line Hs Hl.
      rewrite Forall_forall in Hm. rewrite (Hm source Hs) in Hl.
      apply list_elem_of_singleton in Hl as ->. reflexivity. }
    split.
    + rewrite Hst. simpl. destruct Hp as (Hcount & _). rewrite Hcount.
      assert (Hsteps : web_research_steps tr0
                       = S (Z.to_nat (max_web_research_loops cfg))).
      { unfold Shape.before in Hb. rewrite Hb. unfold web_research_steps.
        rewrite filter_cons_False by discriminate.
        apply iterations_steps. }
      rewrite Hsteps. lia.
    + split; [exact Hnil|]. rewrite Hout in Hnil |- *.
      by apply no_sources_verdict.
  - intros n tr st0 u n' [Hpb Hm] Hu Hs. split.
    + by eapply before_step.
    + by eapply markers_step.
  - split; [split; [apply progress_initial|reflexivity]|constructor].
Qed.

Lemma run_with_search_down_witness :
  ∃ trace st out,
    run Worlds.search_down_world 20 (Some "topic") (Examples.loops_config 1)
    = Finished trace st out
    ∧ research_loop_count st = Z.max 1 (1 + 1)
    ∧ out_sources out = [].
Proof.
  assert (Hrun : ∃ trace st out,
             run Worlds.search_down_world 20 (Some "topic")
               (Examples.loops_config 1) = Finished trace st out).
  { eexists _, _, _. vm_compute. reflexivity. }
  destruct Hrun as (trace & st & out & Hrun).
  destruct (run_with_search_down Worlds.search_down_world
              (Examples.loops_config 1) (Examples.loops_configuration 1)
              20 (Some "topic") trace st out) as (Hcount & Hnil & _).
  - vm_compute. reflexivity.
  - intros t call. exists Examples.service_down. reflexivity.
  - exact Hrun.
  - exists trace, st, out.
    split; [exact Hrun|]. split; [exact Hcount|exact Hnil].
Defined.

(** ** The endpoint *)

(** X20. The response of the endpoint is coherent in every case: when
    [success] is true there is no error message, at least one source
    and a summary; when it is false there is an error message. *)
Theorem response_is_coherent (w : World) (deadline : nat) (topic : string) :
  let r := Api.run_research w deadline topic in
  (Api.success r = true →
   Api.error_message r = None ∧ Api.sources r ≠ [] ∧ is_Some (Api.summary r))
  ∧ (Api.success r = false → Api.error_message r ≠ None).
Proof.
  simpl. unfold Api.run_research.
  destruct (run w deadline (Some topic) (Api.request_config (environ w)))
    as [tr st out|tr st n e|tr st] eqn:Hrun.
  - destruct (finished_pre_summary _ _ _ _ _ _ _ Hrun)
      as (pre & s & -> & _ & _).
    unfold Api.response_of_output. cbn [Api.success Api.error_message
      Api.sources Api.summary].
    destruct (verdict_cases pre) as [(Hs & He & Hn)|(Hs & He)].
    + split; [intros _; split; [exact He|split; [exact Hn|eauto]]|].
      rewrite Hs. discriminate.
    + split; [rewrite Hs; discriminate|]. intros _. exact He.
  - split; [discriminate|]. intros _. discriminate.
  - split; [discriminate|]. intros _. discriminate.
Qed.

(** X21. With the configuration of the endpoint loading and the model
    service raising at every call, the endpoint answers
    [success = false] with the message [Internal error:] followed by the
    text of the exception, for every deadline that lets one node run. *)
Theorem endpoint_reports_model_failure (w : World) (cfg : Configuration)
    (deadline : nat) (topic : string) (e : exn) :
  from_runnable_config (pydantic w) (environ w)
    (Api.request_config (environ w)) = Ok cfg →
  (∀ t llm messages, invoke w t llm messages = Raise e) →
  Api.run_research w (S deadline) topic
  = Api.mkResearchResponse false None []
      (Some ("Internal error: " +:+ exn_msg e)).
Proof.
  intros Hc Hdown. unfold Api.run_research, run. cbn [execute run_node].
  unfold generate_query. rewrite Hc. clear Hc. simpl.
  rewrite (structured_output_propagates w _ _ _ _ _ _ _ e (Hdown _)).
  reflexivity.
Qed.

Lemma endpoint_reports_model_failure_witness :
  Api.run_research Examples.offline_world 20 "topic"
  = Api.mkResearchResponse false None []
      (Some ("Internal error: " +:+ "connection refused")).
Proof.
  apply (endpoint_reports_model_failure Examples.offline_world
           (Examples.loops_configuration 3) 19 "topic" Examples.service_down).
  - vm_compute. reflexivity.
  - intros t llm messages. reflexivity.
Defined.

(** X22. On the path of the endpoint the model name is the variable
    [LLM_MODEL], or [llama3.2] without it, and the base address is the
    variable [OLLAMA_BASE_URL], or the local default: both are entries
    of the run configuration there, so no other variable is read for
    them. *)
Theorem endpoint_model_and_address (pyd : Pydantic) (env : gmap string string)
    (cfg : Configuration) :
  from_runnable_config pyd env (Api.request_config env) = Ok cfg →
  as_str pyd (VStr (default "llama3.2" (env !! "LLM_MODEL")))
  = Some (local_llm cfg)
  ∧ as_str pyd
      (VStr (default "http://localhost:11434/" (env !! "OLLAMA_BASE_URL")))
    = Some (ollama_base_url cfg).
Proof.
  unfold from_runnable_config. intros Hc.
  apply construct_ok in Hc as (_ & Hllm & _ & _ & Hurl & _).
  apply field_ok in Hllm. apply field_ok in Hurl.
  rewrite values_lookup in Hllm by set_solver.
  rewrite values_lookup in Hurl by set_solver.
  assert (H1 : configurable_of (Api.request_config env) !! "local_llm"
               = Some (VStr (default "llama3.2" (env !! "LLM_MODEL")))).
  { apply lookup_insert_eq. }
  assert (H2 : configurable_of (Api.request_config env) !! "ollama_base_url"
               = Some (VStr (default "http://localhost:11434/"
                               (env !! "OLLAMA_BASE_URL")))).
  { etrans; [apply lookup_insert_ne; discriminate|].
    apply lookup_singleton_eq. }
  unfold raw_value in Hllm, Hurl. rewrite H1 in Hllm. rewrite H2 in Hurl.
  cbn [is_none] in Hllm, Hurl. split; [exact Hllm|exact Hurl].
Qed.

Lemma endpoint_model_and_address_witness :
  from_runnable_config Examples.plain_pydantic
    {[ "LOCAL_LLM" := "other"; "LLM_MODEL" := "mistral" ]}
    (Api.request_config {[ "LOCAL_LLM" := "other"; "LLM_MODEL" := "mistral" ]})
  = Ok (mkConfiguration 3 "mistral" "duckduckgo" true
          "http://localhost:11434/" true false)
  ∧ as_str Examples.plain_pydantic (VStr "mistral") = Some "mistral".
Proof.
  assert (Hc : from_runnable_config Examples.plain_pydantic
                 {[ "LOCAL_LLM" := "other"; "LLM_MODEL" := "mistral" ]}
                 (Api.request_config
                    {[ "LOCAL_LLM" := "other"; "LLM_MODEL" := "mistral" ]})
               = Ok (mkConfiguration 3 "mistral" "duckduckgo" true
                       "http://localhost:11434/" true false)).
  { vm_compute. reflexivity. }
  split; [exact Hc|].
  exact (proj1 (endpoint_model_and_address _ _ _ Hc)).
Defined.
